(** * smhi: forecast data model, accessors, weather symbols, fetch client

    A shallow embedding of the Go package [smhi] (file smhi.go) and of its
    command line tool (cmd/smhi/main.go), with the properties of the
    parameter catalog, the accessor layer, the weather-symbol table, the
    control flow of [GetForecast] and what the tool prints.

    Conventions of the embedding:
    - Go [int] is a [Z] inside [int_min .. int_max] (64-bit targets);
    - Go [float64] is a primitive binary64 [float];
    - a Go [string] is its byte sequence, a Rocq [string]; the escapes
      [\uXXXX] and [\UXXXXXXXX] of a string literal denote the UTF-8
      encoding of the code point, computed by [utf8];
    - a run-time panic (index out of range) is the [Panic] result;
    - [time.Time] and the results of the out-of-range float-to-int
      conversion, which the language leaves to the implementation, are
      section variables. *)

From Stdlib Require Import ZArith List String Ascii Bool Lia.
From Stdlib Require Import PrimFloat FloatOps SpecFloat.
Import ListNotations.

#[local] Set Warnings "-inexact-float".
#[local] Open Scope string_scope.
#[local] Open Scope Z_scope.

(** ** Run-time results *)

Inductive result (A : Type) : Type :=
| Ok (a : A)
| Panic.
Arguments Ok {A} a.
Arguments Panic {A}.

Definition bind {A B : Type} (r : result A) (k : A -> result B) : result B :=
  match r with
  | Ok a => k a
  | Panic => Panic
  end.

Definition fmap {A B : Type} (f : A -> B) (r : result A) : result B :=
  bind r (fun a => Ok (f a)).

Notation "x <- r ;; k" := (bind r (fun x => k))
  (at level 61, r at next level, right associativity).

(** ** Go integers and slices *)

Definition int_min : Z := - 2 ^ 63.
Definition int_max : Z := 2 ^ 63 - 1.

Definition len {A : Type} (s : list A) : Z := Z.of_nat (List.length s).

(** [s[i]]: panics unless [0 <= i < len(s)]. *)
Definition index {A : Type} (s : list A) (i : Z) : result A :=
  if (0 <=? i) && (i <? len s) then
    match nth_error s (Z.to_nat i) with
    | Some a => Ok a
    | None => Panic
    end
  else Panic.

(** ** Strings: bytes and UTF-8 *)

Definition byte (z : Z) : ascii := ascii_of_N (Z.to_N z).

Fixpoint bytes (l : list Z) : string :=
  match l with
  | [] => EmptyString
  | b :: rest => String (byte b) (bytes rest)
  end.

Definition cont (r : Z) (shift : Z) : Z :=
  Z.lor 0x80 (Z.land (Z.shiftr r shift) 0x3F).

(** The bytes a Go string literal holds for the escape of code point [r]. *)
Definition utf8 (r : Z) : string :=
  if r <? 0x80 then bytes [r]
  else if r <? 0x800 then bytes [Z.lor 0xC0 (Z.shiftr r 6); cont r 0]
  else if r <? 0x10000 then
    bytes [Z.lor 0xE0 (Z.shiftr r 12); cont r 6; cont r 0]
  else bytes [Z.lor 0xF0 (Z.shiftr r 18); cont r 12; cont r 6; cont r 0].

(** [strings.Contains]-style containment, as a proposition. *)
Definition contains (s sub : string) : Prop :=
  exists pre post, s = pre ++ sub ++ post.

(** ** float64 to int *)

(** The integer obtained by discarding the fraction of a finite float;
    [None] for NaN and the infinities. *)
Definition truncate (f : float) : option Z :=
  match Prim2SF f with
  | S754_zero _ => Some 0
  | S754_finite s m e =>
      let n := if s then Z.neg m else Z.pos m in
      Some (if 0 <=? e then n * 2 ^ e else Z.quot n (2 ^ (- e)))
  | S754_infinity _ => None
  | S754_nan => None
  end.

(** ** Parameter catalog *)

Module Catalog.

Record ParameterDescription : Type := mkParameterDescription {
  Name : string;
  LevelType : string;
  Level : Z;
  Unit : string;
  Description : string;
  ValueRange : string
}.

(** The map literal [ParameterDescriptions], entry by entry in source
    order; a Go map literal cannot repeat a key. *)
Definition ParameterDescriptions : list (string * ParameterDescription) := [
  ("msl", mkParameterDescription "msl" "hmsl" 0 "hPa" "Air pressure"
            "Decimal number, one decimal");
  ("t", mkParameterDescription "t" "hl" 2 "C" "Air temperature"
            "Decimal number, one decimal");
  ("vis", mkParameterDescription "vis" "hl" 2 "km" "Horizontal visibility"
            "Decimal number, one decimal");
  ("wd", mkParameterDescription "wd" "hl" 10 "degree" "Wind direction"
            "Integer");
  ("ws", mkParameterDescription "ws" "hl" 10 "m/s" "Wind speed"
            "Decimal number, one decimal");
  ("r", mkParameterDescription "r" "hl" 2 "%" "Relative humidity"
            "Integer, 0-100");
  ("tstm", mkParameterDescription "tstm" "hl" 0 "%" "Thunder probability"
            "Integer, 0-100");
  ("tcc_mean", mkParameterDescription "tcc_mean" "hl" 0 "octas"
            "Mean value of total cloud cover" "Integer, 0-8");
  ("lcc_mean", mkParameterDescription "lcc_mean" "hl" 0 "octas"
            "Mean value of low level cloud cover" "Integer, 0-8");
  ("mcc_mean", mkParameterDescription "mcc_mean" "hl" 0 "octas"
            "Mean value of medium level cloud cover" "Integer, 0-8");
  ("hcc_mean", mkParameterDescription "hcc_mean" "hl" 0 "octas"
            "Mean value of high level cloud cover" "Integer, 0-8");
  ("gust", mkParameterDescription "gust" "hl" 10 "m/s" "Wind gust speed"
            "Decimal number, one decimal");
  ("pmin", mkParameterDescription "pmin" "hl" 0 "mm/h"
            "Minimum precipitation intensity" "Decimal number, one decimal");
  ("pmax", mkParameterDescription "pmax" "hl" 0 "mm/h"
            "Maximum precipitation intensity" "Decimal number, one decimal");
  ("spp", mkParameterDescription "spp" "hl" 0 "%"
            "Percent of precipitation in frozen form" "Integer, -9 or 0-100");
  ("pcat", mkParameterDescription "pcat" "hl" 0 "category"
            "Precipitation category" "Integer, 0-6");
  ("pmean", mkParameterDescription "pmean" "hl" 0 "mm/h"
            "Mean precipitation intensity" "Decimal number, one decimal");
  ("pmedian", mkParameterDescription "pmedian" "hl" 0 "mm/h"
            "Median precipitation intensity" "Decimal number, one decimal");
  ("wsymb2", mkParameterDescription "wsymb2" "hl" 0 "code" "Weather symbol"
            "Integer, 1-27")
].

(** [ParameterDescriptions[key]] with the comma-ok form: [None] when the
    key is absent. *)
Definition lookup (key : string) : option ParameterDescription :=
  option_map snd
    (find (fun kv => String.eqb (fst kv) key) ParameterDescriptions).

Definition keys : list string := map fst ParameterDescriptions.

End Catalog.

Section Smhi.

(** [time.Time] of the Go standard library. *)
Variable Time : Type.

(** What [int(f)] yields when the truncated value does not fit an [int]
    (or [f] is a NaN or an infinity): the language leaves it to the
    implementation. *)
Variable int_unrepresentable : float -> Z.

(** The conversion [int(f)]. *)
Definition int (f : float) : Z :=
  match truncate f with
  | Some z => if (int_min <=? z) && (z <=? int_max) then z
              else int_unrepresentable f
  | None => int_unrepresentable f
  end.

(** ** Weather symbols *)

Record WeatherSymbol : Type := mkWeatherSymbol {
  Value : Z;
  Meaning : string;
  Unicode : string;
  UnicodeWidth : Z
}.

(** The zero value [WeatherSymbol{}]. *)
Definition WeatherSymbol_zero : WeatherSymbol := mkWeatherSymbol 0 "" "" 0.

Definition WeatherSymbols : list WeatherSymbol := [
  mkWeatherSymbol 0 "No weather" "?" 1;
  mkWeatherSymbol 1 "Clear sky" (utf8 0x2600) 1;
  mkWeatherSymbol 2 "Nearly clear sky" (utf8 0x26c5) 2;
  mkWeatherSymbol 3 "Variable cloudiness" (utf8 0x26c5) 2;
  mkWeatherSymbol 4 "Halfclear sky" (utf8 0x26c5) 2;
  mkWeatherSymbol 5 "Cloudy sky" (utf8 0x2601) 1;
  mkWeatherSymbol 6 "Overcast" (utf8 0x2601) 1;
  mkWeatherSymbol 7 "Fog" (utf8 0x1f32B) 1;
  mkWeatherSymbol 8 "Light rain showers" (utf8 0x1f326) 1;
  mkWeatherSymbol 9 "Moderate rain showers" (utf8 0x1f326) 1;
  mkWeatherSymbol 10 "Heavy rain showers" (utf8 0x1f327) 1;
  mkWeatherSymbol 11 "Thunderstorm" (utf8 0x26a1) 2;
  mkWeatherSymbol 12 "Light sleet showers" (utf8 0x1f328) 1;
  mkWeatherSymbol 13 "Moderate sleet showers" (utf8 0x1f328) 1;
  mkWeatherSymbol 14 "Heavy sleet showers" (utf8 0x1f328) 1;
  mkWeatherSymbol 15 "Light snow showers" (utf8 0x1f328) 1;
  mkWeatherSymbol 16 "Moderate snow showers" (utf8 0x1f328) 1;
  mkWeatherSymbol 17 "Heavy snow showers" (utf8 0x1f328) 1;
  mkWeatherSymbol 18 "Light rain" (utf8 0x1f327) 1;
  mkWeatherSymbol 19 "Moderate rain" (utf8 0x1f327) 1;
  mkWeatherSymbol 20 "Heavy rain" (utf8 0x1f327) 1;
  mkWeatherSymbol 21 "Thunder" (utf8 0x26a1) 2;
  mkWeatherSymbol 22 "Light sleet" (utf8 0x1f328) 1;
  mkWeatherSymbol 23 "Moderate sleet" (utf8 0x1f328) 1;
  mkWeatherSymbol 24 "Heavy sleet" (utf8 0x1f328) 1;
  mkWeatherSymbol 25 "Light snowfall" (utf8 0x1f328) 1;
  mkWeatherSymbol 26 "Moderate snowfall" (utf8 0x1f328) 1;
  mkWeatherSymbol 27 "Heavy snowfall" (utf8 0x1f328) 1
].

Definition WeatherSymbol_FixedWidth (s : WeatherSymbol) : string :=
  if UnicodeWidth s =? 1 then Unicode s ++ " "
  else Unicode s ++ utf8 0x200b.

(** ** Forecast data model *)

(** The Go type is called [Parameter]. *)
Record Parameter_ : Type := mkParameter {
  Name : string;
  LevelType : string;
  Level : Z;
  Unit : string;
  Values : list float
}.

Record TimeSeriesItem : Type := mkTimeSeriesItem {
  ValidTime : Time;
  Parameters : list Parameter_
}.

Definition Point : Type := (float * float)%type.

(** The Go field is called [Type]. *)
Record Geometry : Type := mkGeometry {
  Type_ : string;
  Coordinates : list Point
}.

Record Forecast : Type := mkForecast {
  ApprovedTime : Time;
  ReferenceTime : Time;
  Geometry_ : Geometry;
  TimeSeries : list TimeSeriesItem
}.

(** ** Accessors *)

(** The loop of [Float64]: [for _, p := range i.Parameters]. *)
Fixpoint Float64_range (ps : list Parameter_) (name : string) : result float :=
  match ps with
  | [] => Ok 0%float
  | p :: rest =>
      if String.eqb (Name p) name then index (Values p) 0
      else Float64_range rest name
  end.

Definition TimeSeriesItem_Float64 (i : TimeSeriesItem) (name : string)
  : result float :=
  Float64_range (Parameters i) name.

(** The loop of [Int]. *)
Fixpoint Int_range (ps : list Parameter_) (name : string) : result Z :=
  match ps with
  | [] => Ok 0
  | p :: rest =>
      if String.eqb (Name p) name then
        v <- index (Values p) 0 ;; Ok (int v)
      else Int_range rest name
  end.

Definition TimeSeriesItem_Int (i : TimeSeriesItem) (name : string)
  : result Z :=
  Int_range (Parameters i) name.

Definition TimeSeriesItem_Temperature (i : TimeSeriesItem) : result float :=
  TimeSeriesItem_Float64 i "t".

Definition TimeSeriesItem_MaxPrecipitation (i : TimeSeriesItem)
  : result float :=
  TimeSeriesItem_Float64 i "pmax".

Definition TimeSeriesItem_WindSpeed (i : TimeSeriesItem) : result float :=
  TimeSeriesItem_Float64 i "ws".

Definition TimeSeriesItem_WeatherSymbol (i : TimeSeriesItem)
  : result WeatherSymbol :=
  idx <- TimeSeriesItem_Int i "Wsymb2" ;;
  if (1 <=? idx) && (idx <? len WeatherSymbols) then index WeatherSymbols idx
  else Ok WeatherSymbol_zero.

(** The first parameter of [ps] named [name], if any: what the two loops
    stop at. *)
Definition first_named (ps : list Parameter_) (name : string)
  : option Parameter_ :=
  find (fun p => String.eqb (Name p) name) ps.

(** ** Fetch client *)

(** A Go [error] value; [Error] is its method. *)
Inductive error : Type :=
| fmt_Errorf (msg : string)
| external (pkg : string) (msg : string).

Definition Error (e : error) : string :=
  match e with
  | fmt_Errorf msg => msg
  | external _ msg => msg
  end.

(** [Body] is what reading the response body to its end gives. *)
Record Response : Type := mkResponse {
  StatusCode : Z;
  Body : error + string
}.

Definition StatusOK : Z := 200.

(** The calls [GetForecast] makes to other packages, in order. *)
Inductive event : Type :=
| EvGet (url : string)
| EvReadAll
| EvClose
| EvUnmarshal (buf : string).

Definition IO (A : Type) : Type := (A * list event)%type.

Definition ret {A : Type} (a : A) : IO A := (a, []).

Definition iobind {A B : Type} (c : IO A) (k : A -> IO B) : IO B :=
  let (a, t1) := c in
  let (b, t2) := k a in
  (b, (t1 ++ t2)%list).

Notation "x <~ c ;; k" := (iobind c (fun x => k))
  (at level 61, c at next level, right associativity).

(** [defer d] around the rest of the function body. *)
Definition defer {A : Type} (d : IO unit) (body : IO A) : IO A :=
  r <~ body ;; _ <~ d ;; ret r.

(** The network, the [%f] verb of [fmt] and the JSON decoder, for one run. *)
Variable network : string -> error + Response.
Variable fmt_f : float -> string.
Variable decode : string -> error + Forecast.

Definition http_Get (url : string) : IO (error + Response) :=
  (network url, [EvGet url]).

Definition io_ReadAll (resp : Response) : IO (error + string) :=
  (Body resp, [EvReadAll]).

Definition Body_Close (resp : Response) : IO unit := (tt, [EvClose]).

Definition json_Unmarshal (buf : string) : IO (error + Forecast) :=
  (decode buf, [EvUnmarshal buf]).

Definition forecast_url (lon lat : float) : string :=
  "https://opendata-download-metfcst.smhi.se/api/category/pmp3g/version/2/geotype/point/lon/"
  ++ fmt_f lon ++ "/lat/" ++ fmt_f lat ++ "/data.json".

(** Returns the pair of a Forecast pointer and an error; [None] is [nil]. *)
Definition GetForecast (lon lat : float)
  : IO (option Forecast * option error) :=
  r <~ http_Get (forecast_url lon lat) ;;
  match r with
  | inl err => ret (None, Some err)
  | inr resp =>
      defer (Body_Close resp) (
        b <~ io_ReadAll resp ;;
        match b with
        | inl err => ret (None, Some err)
        | inr buf =>
            if negb (StatusCode resp =? StatusOK) then
              ret (None, Some (fmt_Errorf ("status is not ok: " ++ buf)))
            else
              u <~ json_Unmarshal buf ;;
              match u with
              | inl err => ret (None, Some err)
              | inr forecast => ret (Some forecast, None)
              end
        end)
  end.

(** ** Vocabulary of the statements *)

(** [i] has some parameter named [name] whose values are [vals]. *)
Definition includes (i : TimeSeriesItem) (name : string) (vals : list float)
  : Prop :=
  exists p, In p (Parameters i) /\ Name p = name /\ Values p = vals.

(** The first parameter of [i] named [name] has values [vals]. *)
Definition first_has (i : TimeSeriesItem) (name : string) (vals : list float)
  : Prop :=
  exists p, first_named (Parameters i) name = Some p /\ Values p = vals.

(** The terminal columns the output of [FixedWidth] is laid out for: the
    declared width of the glyph, plus one for the ordinary space; U+200B
    takes none. *)
Definition FixedWidth_columns (s : WeatherSymbol) : Z :=
  UnicodeWidth s + (if UnicodeWidth s =? 1 then 1 else 0).

(** ** Command line tool (cmd/smhi/main.go) *)

(** What the time of an item prints as with layout "Mon 15:04" in the local
    zone, the [%.1f] verb of [fmt], and the file system, for one run. *)
Variable fmt_time : Time -> string.
Variable fmt_1f : float -> string.
Variable files : string -> error + string.

Definition tab : string := bytes [9].
Definition newline : string := bytes [10].

Definition table_header : string :=
  "Time" ++ tab ++ "Weather" ++ tab ++ "Temperature" ++ tab
  ++ "Max precipitation" ++ tab ++ "Wind speed" ++ newline.

(** One pass of the loop body of [printForecast]: the line handed to the
    tab writer for [item]. *)
Definition table_row (item : TimeSeriesItem) : result string :=
  let ts := fmt_time (ValidTime item) in
  weather <- TimeSeriesItem_WeatherSymbol item ;;
  t <- TimeSeriesItem_Temperature item ;;
  pmax <- TimeSeriesItem_MaxPrecipitation item ;;
  ws <- TimeSeriesItem_WindSpeed item ;;
  Ok (ts ++ tab
      ++ WeatherSymbol_FixedWidth weather ++ " " ++ Meaning weather ++ tab
      ++ fmt_1f t ++ utf8 0xb0 ++ "C" ++ tab
      ++ fmt_1f pmax ++ " mm/h" ++ tab
      ++ fmt_1f ws ++ " m/s" ++ newline).

(** The loop [for _, item := range forecast.TimeSeries]. *)
Fixpoint table_rows (items : list TimeSeriesItem) : result (list string) :=
  match items with
  | [] => Ok []
  | item :: rest =>
      r <- table_row item ;;
      rs <- table_rows rest ;;
      Ok (r :: rs)
  end.

(** [printForecast]: the lines the tab writer holds when [w.Flush()] is
    reached; [Panic] when a panic ends the function before that. The
    argument is a pointer, [None] being [nil]. *)
Definition printForecast (forecast : option Forecast) : result (list string) :=
  match forecast with
  | None => Panic
  | Some f =>
      rs <- table_rows (TimeSeries f) ;;
      Ok (table_header :: rs)
  end.

(** What the tool does to the outside, in order. [EvStderr] is a write
    of the tool itself to the error stream; [EvPanicReport] is the report
    the Go runtime writes to the error stream for an unrecovered panic. *)
Inductive cli_event : Type :=
| Lib (e : event)
| EvReadFile (name : string)
| EvFlush (lines : list string)
| EvStderr (text : string)
| EvPanicReport.

(** [run] after [flag.Parse()], with the values of the three flags: the
    error it returns ([None] is [nil]) or a panic, and what it did. *)
Definition run (lon lat : float) (name : string)
  : result (option error) * list cli_event :=
  if negb (String.eqb name "") then
    match files name with
    | inl err => (Ok (Some err), [EvReadFile name])
    | inr buf =>
        match decode buf with
        | inl err => (Ok (Some err), [EvReadFile name; Lib (EvUnmarshal buf)])
        | inr forecast =>
            match printForecast (Some forecast) with
            | Ok lines =>
                (Ok None,
                 [EvReadFile name; Lib (EvUnmarshal buf); EvFlush lines])
            | Panic => (Panic, [EvReadFile name; Lib (EvUnmarshal buf)])
            end
        end
    end
  else
    let (r, trace) := GetForecast lon lat in
    let (forecast, err) := r in
    match err with
    | Some e => (Ok (Some e), map Lib trace)
    | None =>
        match printForecast forecast with
        | Ok lines => (Ok None, (map Lib trace ++ [EvFlush lines])%list)
        | Panic => (Panic, map Lib trace)
        end
    end.

(** How the process ends: [os.Exit(1)], a return from [main] (status 0),
    or an unrecovered panic, which the runtime reports on the error stream
    before it ends the process with status 2. *)
Inductive ending : Type :=
| Exit1
| Returned
| Crashed.

Definition main (lon lat : float) (name : string)
  : ending * list cli_event :=
  let (r, trace) := run lon lat name in
  match r with
  | Ok (Some err) =>
      (Exit1, (trace ++ [EvStderr (Error err ++ newline)])%list)
  | Ok None => (Returned, trace)
  | Panic => (Crashed, (trace ++ [EvPanicReport])%list)
  end.


(** The first parameter of [i] named [name] has no value at all. *)
Definition hollow (i : TimeSeriesItem) (name : string) : Prop :=
  exists p, first_named (Parameters i) name = Some p /\ Values p = [].

(** The names [printForecast] reads from every item. *)
Definition printed_names : list string := ["Wsymb2"; "t"; "pmax"; "ws"].

End Smhi.

Arguments mkTimeSeriesItem {Time} ValidTime Parameters.
Arguments Parameters {Time} t.
Arguments TimeSeriesItem_Float64 {Time} i name.
Arguments TimeSeriesItem_Int {Time} int_unrepresentable i name.
Arguments TimeSeriesItem_Temperature {Time} i.
Arguments TimeSeriesItem_MaxPrecipitation {Time} i.
Arguments TimeSeriesItem_WindSpeed {Time} i.
Arguments TimeSeriesItem_WeatherSymbol {Time} int_unrepresentable i.
Arguments includes {Time} i name vals.
Arguments first_has {Time} i name vals.
Arguments GetForecast {Time} network fmt_f decode lon lat.
Arguments ValidTime {Time} t.
Arguments mkForecast {Time} ApprovedTime ReferenceTime Geometry_ TimeSeries.
Arguments TimeSeries {Time} f.
Arguments hollow {Time} i name.
Arguments table_row {Time} int_unrepresentable fmt_time fmt_1f item.
Arguments table_rows {Time} int_unrepresentable fmt_time fmt_1f items.
Arguments printForecast {Time} int_unrepresentable fmt_time fmt_1f forecast.
Arguments run {Time} int_unrepresentable network fmt_f decode fmt_time fmt_1f
  files lon lat name.
Arguments main {Time} int_unrepresentable network fmt_f decode fmt_time fmt_1f
  files lon lat name.

(** ** Concrete inputs *)

(** On amd64 the conversion instruction yields the smallest [int] for every
    value it cannot represent. *)
Definition amd64 : float -> Z := fun _ => int_min.

(** Instants as seconds since the epoch. *)
Definition instant : Type := Z.

Definition fixture_item : TimeSeriesItem instant :=
  mkTimeSeriesItem 1692442800 [
    mkParameter "t" "hl" 2 "Cel" [18.6%float];
    mkParameter "pmax" "hl" 0 "kg/m2/h" [2.6%float];
    mkParameter "ws" "hl" 10 "m/s" [5.6%float];
    mkParameter "Wsymb2" "hl" 0 "category" [19%float]
  ].

(** Two parameters named t, the first with two values. *)
Definition repeated_item : TimeSeriesItem instant :=
  mkTimeSeriesItem 1692442800 [
    mkParameter "t" "hl" 2 "Cel" [(-2.6)%float; 9.5%float];
    mkParameter "t" "hl" 2 "Cel" [18.6%float];
    mkParameter "pmax" "hl" 0 "kg/m2/h" [2.6%float];
    mkParameter "ws" "hl" 10 "m/s" [5.6%float];
    mkParameter "Wsymb2" "hl" 0 "category" [19%float]
  ].

Definition bare_item : TimeSeriesItem instant :=
  mkTimeSeriesItem 1692442800 [].

Definition code28_item : TimeSeriesItem instant :=
  mkTimeSeriesItem 1692442800 [
    mkParameter "Wsymb2" "hl" 0 "category" [28%float]
  ].

(** A parameter without values, which the decoder accepts. *)
Definition hollow_item : TimeSeriesItem instant :=
  mkTimeSeriesItem 1692442800 [
    mkParameter "Wsymb2" "hl" 0 "category" []
  ].

Definition unavailable : Response :=
  mkResponse 503 (inr "service unavailable").

(** Only names of the catalog, the symbol under the catalog's spelling. *)
Definition catalog_item : TimeSeriesItem instant :=
  mkTimeSeriesItem 1692442800 [
    mkParameter "t" "hl" 2 "Cel" [18.6%float];
    mkParameter "wsymb2" "hl" 0 "category" [19%float]
  ].

Definition fixture_forecast : Forecast instant :=
  mkForecast 1692439200 1692439200
    (mkGeometry "Point" [(18.040468%float, 59.340379%float)])
    [fixture_item; code28_item].

Definition hollow_forecast : Forecast instant :=
  mkForecast 1692439200 1692439200
    (mkGeometry "Point" [(18.040468%float, 59.340379%float)])
    [fixture_item; hollow_item].

Definition no_route : error := external "net/http" "no route to host".
Definition cut_short : error := external "io" "unexpected EOF".
Definition bad_json : error :=
  external "encoding/json" "unexpected end of JSON input".
Definition no_file : error := external "os" "no such file or directory".

Definition net_down : string -> error + Response := fun _ => inl no_route.
Definition net_503 : string -> error + Response := fun _ => inr unavailable.
Definition net_cut : string -> error + Response :=
  fun _ => inr (mkResponse 200 (inl cut_short)).
Definition net_200 : string -> error + Response :=
  fun _ => inr (mkResponse 200 (inr "{}")).

Definition six_decimals : float -> string := fun _ => "0.000000".
Definition one_decimal : float -> string := fun _ => "0.0".
Definition clock : instant -> string := fun _ => "Sat 17:00".

Definition decode_fixture : string -> error + Forecast instant :=
  fun _ => inr fixture_forecast.
Definition decode_fails : string -> error + Forecast instant :=
  fun _ => inl bad_json.
Definition no_files : string -> error + string := fun _ => inl no_file.

(** 10^19, above the largest [int]. *)
Definition huge_item : TimeSeriesItem instant :=
  mkTimeSeriesItem 1692442800 [
    mkParameter "t" "hl" 2 "Cel" [1e19%float]
  ].


Ltac all_named :=
  let p := fresh "p" in
  let H := fresh "H" in
  intros p H; cbn [Parameters In fixture_item repeated_item bare_item
                   code28_item hollow_item] in H;
  repeat (destruct H as [H|H]; [subst p; cbn; discriminate|]);
  contradiction.

Ltac in_table := cbn [WeatherSymbols In]; repeat (try (left; reflexivity); right).

(** * Properties *)

Section Properties.

Variable Time : Type.
Variable int_unrepresentable : float -> Z.
Variable network : string -> error + Response.
Variable fmt_f : float -> string.
Variable decode : string -> error + Forecast Time.
Variable fmt_time : Time -> string.
Variable fmt_1f : float -> string.
Variable files : string -> error + string.

(** ** Runs of the model *)

Example utf8_escapes :
  utf8 0x3f = "?" /\
  utf8 0x2600 = bytes [0xE2; 0x98; 0x80] /\
  utf8 0x1f327 = bytes [0xF0; 0x9F; 0x8C; 0xA7].
Proof. repeat split. Qed.

Example truncate_runs :
  truncate 18.6%float = Some 18 /\
  truncate (-2.6)%float = Some (-2) /\
  truncate (-0)%float = Some 0 /\
  truncate infinity = None /\
  truncate nan = None.
Proof. repeat split. Qed.

Example int_beyond_range :
  int int_unrepresentable 1e19%float = int_unrepresentable 1e19%float.
Proof. reflexivity. Qed.

(** Reading [Values[0]] of a parameter without values panics, in all
    three accessors. *)
Example hollow_item_panics :
  TimeSeriesItem_Float64 hollow_item "Wsymb2" = Panic /\
  TimeSeriesItem_Int int_unrepresentable hollow_item "Wsymb2" = Panic /\
  TimeSeriesItem_WeatherSymbol int_unrepresentable hollow_item = Panic.
Proof. repeat split. Qed.

Lemma int_in_range (f : float) :
  (forall g, int_min <= int_unrepresentable g <= int_max) ->
  int_min <= int int_unrepresentable f <= int_max.
Proof.
  intros Himpl. unfold int. destruct (truncate f) as [z|]; [|apply Himpl].
  destruct (int_min <=? z) eqn:E1; [|apply Himpl].
  destruct (z <=? int_max) eqn:E2; [|apply Himpl].
  apply Z.leb_le in E1. apply Z.leb_le in E2. cbn [andb]. lia.
Qed.

(** ** Slices and first match *)

Lemma index_head {A : Type} (a : A) (rest : list A) :
  index (a :: rest) 0 = Ok a.
Proof.
  unfold index, len. cbn [List.length nth_error Z.to_nat].
  replace (0 <? Z.of_nat (S (List.length rest))) with true
    by (symmetry; apply Z.ltb_lt; lia).
  reflexivity.
Qed.

Lemma index_empty {A : Type} (i : Z) : index (@nil A) i = Panic.
Proof.
  unfold index, len. cbn [List.length].
  destruct (0 <=? i) eqn:E1, (i <? Z.of_nat 0) eqn:E2; try reflexivity.
  apply Z.leb_le in E1. apply Z.ltb_lt in E2. lia.
Qed.

Lemma index_in_range {A : Type} (s : list A) (i : Z) :
  0 <= i < len s ->
  exists a, nth_error s (Z.to_nat i) = Some a /\ index s i = Ok a.
Proof.
  intros [Hlo Hhi]. unfold index.
  replace (0 <=? i) with true by (symmetry; apply Z.leb_le; exact Hlo).
  replace (i <? len s) with true by (symmetry; apply Z.ltb_lt; exact Hhi).
  cbn [andb].
  destruct (nth_error s (Z.to_nat i)) as [a|] eqn:E.
  - exists a. split; reflexivity.
  - apply nth_error_None in E. unfold len in Hhi. lia.
Qed.

Lemma index_nonempty {A : Type} (s : list A) :
  s <> [] -> exists a, index s 0 = Ok a.
Proof.
  destruct s as [|a rest]; intros H.
  - contradiction.
  - exists a. apply index_head.
Qed.

Lemma first_named_none (ps : list Parameter_) (name : string) :
  (forall p, In p ps -> Name p <> name) -> first_named ps name = None.
Proof.
  induction ps as [|q ps IH]; intros H; cbn [first_named find].
  - reflexivity.
  - destruct (String.eqb (Name q) name) eqn:E.
    + apply String.eqb_eq in E. exfalso. apply (H q); [left; reflexivity|exact E].
    + apply IH. intros p Hp. apply H. right. exact Hp.
Qed.

Lemma first_named_split (pre post : list Parameter_) (p : Parameter_)
  (name : string) :
  (forall q, In q pre -> Name q <> name) -> Name p = name ->
  first_named (pre ++ p :: post)%list name = Some p.
Proof.
  induction pre as [|q pre IH]; intros Hpre Hp; cbn [app first_named find].
  - replace (String.eqb (Name p) name) with true
      by (symmetry; apply String.eqb_eq; exact Hp).
    reflexivity.
  - destruct (String.eqb (Name q) name) eqn:E.
    + apply String.eqb_eq in E. exfalso.
      apply (Hpre q); [left; reflexivity|exact E].
    + apply IH; [|exact Hp]. intros r Hr. apply Hpre. right. exact Hr.
Qed.

Lemma first_named_In (ps : list Parameter_) (name : string) (p : Parameter_) :
  first_named ps name = Some p -> In p ps /\ Name p = name.
Proof.
  unfold first_named. intros H. apply find_some in H.
  destruct H as [Hin Heq]. split; [exact Hin|]. apply String.eqb_eq. exact Heq.
Qed.

(** Both loops stop at the first parameter with the name. *)
Lemma Float64_range_first (ps : list Parameter_) (name : string) :
  Float64_range ps name =
  match first_named ps name with
  | Some p => index (Values p) 0
  | None => Ok 0%float
  end.
Proof.
  induction ps as [|q ps IH]; cbn [Float64_range first_named find].
  - reflexivity.
  - destruct (String.eqb (Name q) name); [reflexivity|exact IH].
Qed.

Lemma Int_range_first (ps : list Parameter_) (name : string) :
  Int_range int_unrepresentable ps name =
  match first_named ps name with
  | Some p => v <- index (Values p) 0 ;; Ok (int int_unrepresentable v)
  | None => Ok 0
  end.
Proof.
  induction ps as [|q ps IH]; cbn [Int_range first_named find].
  - reflexivity.
  - destruct (String.eqb (Name q) name); [reflexivity|exact IH].
Qed.

Lemma int_zero : int int_unrepresentable 0%float = 0.
Proof. reflexivity. Qed.

Lemma len_WeatherSymbols : len WeatherSymbols = 28.
Proof. reflexivity. Qed.

(** [truncate] rounds toward zero: with the float's value [n * 2^e], the
    result is exact for [0 <= e], and otherwise the integer of the same sign
    whose magnitude is the largest one not above [|n| / 2^(-e)]. *)
Lemma truncate_toward_zero (f : float) (s : bool) (m : positive) (e z : Z) :
  Prim2SF f = S754_finite s m e -> truncate f = Some z ->
  (0 <= e -> z = (if s then Z.neg m else Z.pos m) * 2 ^ e) /\
  (e < 0 ->
   Z.abs z * 2 ^ (- e) <= Z.pos m < (Z.abs z + 1) * 2 ^ (- e) /\
   (if s then z <= 0 else 0 <= z)).
Proof.
  intros Hf Ht. unfold truncate in Ht. rewrite Hf in Ht.
  injection Ht as Hz. split; intros He.
  - replace (0 <=? e) with true in Hz by (symmetry; apply Z.leb_le; exact He).
    symmetry. exact Hz.
  - replace (0 <=? e) with false in Hz by (symmetry; apply Z.leb_gt; exact He).
    assert (Hd : 0 < 2 ^ (- e)) by (apply Z.pow_pos_nonneg; lia).
    set (d := 2 ^ (- e)) in *.
    assert (Hq : Z.quot (Z.pos m) d = Z.pos m / d)
      by (apply Z.quot_div_nonneg; lia).
    assert (Hlo : d * (Z.pos m / d) <= Z.pos m)
      by (apply Z.mul_div_le; exact Hd).
    assert (Hhi : Z.pos m < d * Z.succ (Z.pos m / d))
      by (apply Z.mul_succ_div_gt; exact Hd).
    assert (Hnn : 0 <= Z.pos m / d) by (apply Z.div_pos; lia).
    destruct s.
    + change (Z.neg m) with (- Z.pos m) in Hz.
      rewrite Z.quot_opp_l, Hq in Hz by lia.
      subst z. rewrite Z.abs_opp, Z.abs_eq by exact Hnn. lia.
    + rewrite Hq in Hz. subst z. rewrite Z.abs_eq by exact Hnn. lia.
Qed.

(** ** The weather-symbol table *)

(** C8: the table has 28 entries, the entry at index [i] has value [i] for
    every [i] from 0 to 27, every declared width is 1 or 2, and entry 0 is
    the reserved "No weather" entry. *)
Theorem WeatherSymbols_dense :
  len WeatherSymbols = 28 /\
  (forall i, 0 <= i <= 27 ->
     exists s, index WeatherSymbols i = Ok s /\ Value s = i) /\
  (forall s, In s WeatherSymbols -> UnicodeWidth s = 1 \/ UnicodeWidth s = 2) /\
  index WeatherSymbols 0 = Ok (mkWeatherSymbol 0 "No weather" "?" 1).
Proof.
  split; [reflexivity|]. split; [|split; [|reflexivity]].
  - intros i Hi.
    assert (Hn : exists n, (n < 28)%nat /\ i = Z.of_nat n)
      by (exists (Z.to_nat i); lia).
    destruct Hn as [n [Hb ->]]. clear Hi.
    do 28 (destruct n as [|n]; [eexists; split; reflexivity|]).
    lia.
  - intros s Hs. cbn [WeatherSymbols In] in Hs.
    repeat (destruct Hs as [Hs|Hs]; [subst s; cbn; auto|]).
    contradiction.
Qed.

(** C6: for every entry of the table, [FixedWidth] is the glyph followed by
    one ordinary space when the declared width is 1, and the glyph followed
    by U+200B (zero-width space) when it is 2. *)
Theorem FixedWidth_table (s : WeatherSymbol) :
  In s WeatherSymbols ->
  (UnicodeWidth s = 1 -> WeatherSymbol_FixedWidth s = Unicode s ++ " ") /\
  (UnicodeWidth s = 2 ->
   WeatherSymbol_FixedWidth s = Unicode s ++ utf8 0x200b) /\
  utf8 0x200b = bytes [0xE2; 0x80; 0x8B].
Proof.
  intros _. unfold WeatherSymbol_FixedWidth.
  split; [|split; [|reflexivity]]; intros Hw; rewrite Hw; reflexivity.
Qed.

(** ** Parameter lookup *)

(** C2: when no parameter of the item is named [X], [Float64 X] returns
    0.0; when some parameter is, it returns element 0 of the values of the
    first one in sequence order, whatever values follow element 0 and
    whatever parameters follow that one. *)
Theorem Float64_first_match (i : TimeSeriesItem Time) (X : string) :
  ((forall p, In p (Parameters i) -> Name p <> X) ->
   TimeSeriesItem_Float64 i X = Ok 0%float) /\
  (forall pre p post,
     Parameters i = (pre ++ p :: post)%list ->
     (forall q, In q pre -> Name q <> X) -> Name p = X ->
     TimeSeriesItem_Float64 i X = index (Values p) 0 /\
     forall v rest, Values p = v :: rest ->
       TimeSeriesItem_Float64 i X = Ok v).
Proof.
  unfold TimeSeriesItem_Float64. split.
  - intros Hno. rewrite Float64_range_first, first_named_none by exact Hno.
    reflexivity.
  - intros pre p post Hps Hpre Hp.
    rewrite Float64_range_first, Hps, first_named_split by assumption.
    split; [reflexivity|].
    intros v rest Hv. rewrite Hv. apply index_head.
Qed.

Lemma Int_fmap_Float64 (i : TimeSeriesItem Time) (X : string) :
  TimeSeriesItem_Int int_unrepresentable i X = fmap (int int_unrepresentable) (TimeSeriesItem_Float64 i X).
Proof.
  unfold TimeSeriesItem_Int, TimeSeriesItem_Float64.
  rewrite Int_range_first, Float64_range_first.
  destruct (first_named (Parameters i) X) as [p|]; reflexivity.
Qed.

Lemma Int_no_match (i : TimeSeriesItem Time) (X : string) :
  (forall p, In p (Parameters i) -> Name p <> X) ->
  TimeSeriesItem_Int int_unrepresentable i X = Ok 0.
Proof.
  intros Hno. unfold TimeSeriesItem_Int.
  rewrite Int_range_first, first_named_none by exact Hno. reflexivity.
Qed.

Lemma int_representable (v : float) (z : Z) :
  truncate v = Some z -> int_min <= z <= int_max -> int int_unrepresentable v = z.
Proof.
  intros Ht [Hlo Hhi]. unfold int. rewrite Ht.
  replace (int_min <=? z) with true by (symmetry; apply Z.leb_le; exact Hlo).
  replace (z <=? int_max) with true by (symmetry; apply Z.leb_le; exact Hhi).
  reflexivity.
Qed.

(** C9, amended: [Int X] does the lookup of [Float64 X] and converts what
    it finds with the conversion [int]: it is [int] of [Float64 X], it is 0
    when no parameter is named [X], and it is the value of [Float64 X]
    truncated toward zero whenever that value is finite and its truncation
    fits an [int]; for the other values (NaN, the infinities, magnitudes
    beyond the range of [int]) the result is what the implementation
    yields, not the truncation. *)
Theorem Int_truncates_Float64 (i : TimeSeriesItem Time) (X : string) :
  TimeSeriesItem_Int int_unrepresentable i X = fmap (int int_unrepresentable) (TimeSeriesItem_Float64 i X) /\
  ((forall p, In p (Parameters i) -> Name p <> X) ->
   TimeSeriesItem_Int int_unrepresentable i X = Ok 0) /\
  (forall v z, TimeSeriesItem_Float64 i X = Ok v ->
     truncate v = Some z -> int_min <= z <= int_max ->
     TimeSeriesItem_Int int_unrepresentable i X = Ok z).
Proof.
  split; [apply Int_fmap_Float64|]. split; [apply Int_no_match|].
  intros v z Hv Ht Hz. rewrite Int_fmap_Float64, Hv. cbn [fmap bind].
  f_equal. apply int_representable; assumption.
Qed.

(** ** Weather-symbol lookup *)

Lemma lookup_in_table (i : TimeSeriesItem Time) (c : Z) :
  TimeSeriesItem_Int int_unrepresentable i "Wsymb2" = Ok c -> 1 <= c <= 27 ->
  exists s, nth_error WeatherSymbols (Z.to_nat c) = Some s /\
            TimeSeriesItem_WeatherSymbol int_unrepresentable i = Ok s.
Proof.
  intros Hc H. unfold TimeSeriesItem_WeatherSymbol. rewrite Hc. cbn [bind].
  rewrite len_WeatherSymbols.
  replace (1 <=? c) with true by (symmetry; apply Z.leb_le; lia).
  replace (c <? 28) with true by (symmetry; apply Z.ltb_lt; lia).
  cbn [andb]. apply index_in_range. rewrite len_WeatherSymbols. lia.
Qed.

Lemma lookup_zero (i : TimeSeriesItem Time) (c : Z) :
  TimeSeriesItem_Int int_unrepresentable i "Wsymb2" = Ok c -> ~ (1 <= c <= 27) ->
  TimeSeriesItem_WeatherSymbol int_unrepresentable i = Ok WeatherSymbol_zero.
Proof.
  intros Hc H. unfold TimeSeriesItem_WeatherSymbol. rewrite Hc. cbn [bind].
  rewrite len_WeatherSymbols.
  destruct (1 <=? c) eqn:E1; [|reflexivity].
  destruct (c <? 28) eqn:E2; [|reflexivity].
  apply Z.leb_le in E1. apply Z.ltb_lt in E2. exfalso. apply H. lia.
Qed.

(** C1: with [c] the integer code [Int "Wsymb2"] of the item, the lookup
    returns the table entry at index [c] when [1 <= c <= 27], and the zero
    value (0, "", "", 0) for every other [c]. *)
Theorem WeatherSymbol_lookup (i : TimeSeriesItem Time) (c : Z) :
  TimeSeriesItem_Int int_unrepresentable i "Wsymb2" = Ok c ->
  (1 <= c <= 27 ->
   exists s, nth_error WeatherSymbols (Z.to_nat c) = Some s /\
             TimeSeriesItem_WeatherSymbol int_unrepresentable i = Ok s) /\
  (~ (1 <= c <= 27) ->
   TimeSeriesItem_WeatherSymbol int_unrepresentable i = Ok (mkWeatherSymbol 0 "" "" 0)).
Proof.
  intros Hc. split; intros H.
  - apply lookup_in_table; assumption.
  - apply (lookup_zero i c); assumption.
Qed.

(** C10: when the code of the item is outside [1, 27], and in particular
    when the item has no parameter named Wsymb2, [FixedWidth] of the
    returned zero value is U+200B alone: no glyph and no ordinary space,
    zero columns, whereas every entry of the table yields a non-empty glyph
    before its suffix and two columns. *)
Theorem FixedWidth_unknown (i : TimeSeriesItem Time) :
  ((exists c, TimeSeriesItem_Int int_unrepresentable i "Wsymb2" = Ok c /\ ~ (1 <= c <= 27)) \/
   (forall p, In p (Parameters i) -> Name p <> "Wsymb2")) ->
  (exists z, TimeSeriesItem_WeatherSymbol int_unrepresentable i = Ok z /\
     z = WeatherSymbol_zero /\
     WeatherSymbol_FixedWidth z = bytes [0xE2; 0x80; 0x8B] /\
     bytes [0xE2; 0x80; 0x8B] = utf8 0x200b /\
     FixedWidth_columns z = 0) /\
  (forall s, In s WeatherSymbols ->
     Unicode s <> "" /\
     (WeatherSymbol_FixedWidth s = Unicode s ++ " " \/
      WeatherSymbol_FixedWidth s = Unicode s ++ utf8 0x200b) /\
     FixedWidth_columns s = 2).
Proof.
  intros H. split.
  - assert (Hz : TimeSeriesItem_WeatherSymbol int_unrepresentable i = Ok WeatherSymbol_zero).
    { destruct H as [[c [Hc Hout]]|Hno].
      - apply (lookup_zero i c Hc Hout).
      - apply (lookup_zero i 0); [apply Int_no_match, Hno|lia]. }
    exists WeatherSymbol_zero. repeat split; [exact Hz].
  - intros s Hs. cbn [WeatherSymbols In] in Hs.
    repeat (destruct Hs as [Hs|Hs];
            [subst s; split; [discriminate|split; [cbn; auto|reflexivity]]|]).
    contradiction.
Qed.

(** ** Totality *)

Lemma Float64_total (i : TimeSeriesItem Time) (X : string) :
  (forall p, In p (Parameters i) -> Values p <> []) ->
  exists v, TimeSeriesItem_Float64 i X = Ok v.
Proof.
  intros Hne. unfold TimeSeriesItem_Float64. rewrite Float64_range_first.
  destruct (first_named (Parameters i) X) as [p|] eqn:E.
  - apply index_nonempty, Hne. apply (first_named_In _ _ _ E).
  - exists 0%float. reflexivity.
Qed.

(** C3: when every parameter of the item has at least one value, [Float64],
    [Int] and the weather-symbol lookup return a value for every name: no
    index is ever out of range. *)
Theorem accessors_total (i : TimeSeriesItem Time) :
  (forall p, In p (Parameters i) -> Values p <> []) ->
  forall X,
    (exists v, TimeSeriesItem_Float64 i X = Ok v) /\
    (exists n, TimeSeriesItem_Int int_unrepresentable i X = Ok n) /\
    (exists s, TimeSeriesItem_WeatherSymbol int_unrepresentable i = Ok s).
Proof.
  intros Hne X.
  assert (HI : forall Y, exists n, TimeSeriesItem_Int int_unrepresentable i Y = Ok n).
  { intros Y. destruct (Float64_total i Y Hne) as [v Hv].
    exists (int int_unrepresentable v). rewrite Int_fmap_Float64, Hv. reflexivity. }
  split; [apply Float64_total, Hne|]. split; [apply HI|].
  destruct (HI "Wsymb2") as [c Hc].
  destruct (Z_le_dec 1 c) as [H1|H1]; [destruct (Z_le_dec c 27) as [H2|H2]|].
  - destruct (lookup_in_table i c Hc (conj H1 H2)) as [s [_ Hs]].
    exists s. exact Hs.
  - exists WeatherSymbol_zero. apply (lookup_zero i c Hc). lia.
  - exists WeatherSymbol_zero. apply (lookup_zero i c Hc). lia.
Qed.

(** ** The fixture scenario *)

Lemma Float64_first_has (i : TimeSeriesItem Time) (X : string) (v : float)
  (rest : list float) :
  first_has i X (v :: rest) -> TimeSeriesItem_Float64 i X = Ok v.
Proof.
  intros [p [Hp Hv]]. unfold TimeSeriesItem_Float64.
  rewrite Float64_range_first, Hp, Hv. apply index_head.
Qed.

(** C4, amended: for every item whose first parameter named t has values
    [18.6], whose first named pmax has [2.6], whose first named ws has
    [5.6] and whose first named Wsymb2 has [19], the accessors return 18.6,
    2.6 and 5.6, and the weather symbol is the entry of value 19, "Moderate
    rain", whose [FixedWidth] is its glyph followed by one space. *)
Theorem fixture_accessors (i : TimeSeriesItem Time) :
  first_has i "t" [18.6%float] ->
  first_has i "pmax" [2.6%float] ->
  first_has i "ws" [5.6%float] ->
  first_has i "Wsymb2" [19%float] ->
  TimeSeriesItem_Temperature i = Ok 18.6%float /\
  TimeSeriesItem_MaxPrecipitation i = Ok 2.6%float /\
  TimeSeriesItem_WindSpeed i = Ok 5.6%float /\
  exists s, TimeSeriesItem_WeatherSymbol int_unrepresentable i = Ok s /\
    index WeatherSymbols 19 = Ok s /\
    Value s = 19 /\ Meaning s = "Moderate rain" /\
    WeatherSymbol_FixedWidth s = Unicode s ++ " " /\
    WeatherSymbol_FixedWidth s = bytes [0xF0; 0x9F; 0x8C; 0xA7; 0x20].
Proof.
  intros Ht Hp Hw Hs.
  split; [apply (Float64_first_has i "t" _ [] Ht)|].
  split; [apply (Float64_first_has i "pmax" _ [] Hp)|].
  split; [apply (Float64_first_has i "ws" _ [] Hw)|].
  assert (Hc : TimeSeriesItem_Int int_unrepresentable i "Wsymb2" = Ok 19).
  { rewrite Int_fmap_Float64, (Float64_first_has i "Wsymb2" _ [] Hs).
    reflexivity. }
  eexists. split.
  - unfold TimeSeriesItem_WeatherSymbol. rewrite Hc. reflexivity.
  - repeat split.
Qed.

(** ** Fetch client *)

Lemma append_nil_r (s : string) : s ++ "" = s.
Proof.
  induction s as [|a s IH]; cbn [append]; [reflexivity|].
  rewrite IH. reflexivity.
Qed.

(** C5: when the response has a status other than OK and its body reads as
    [B], [GetForecast] returns no Forecast and an error whose text contains
    [B], and the JSON decoder is never called. *)
Theorem GetForecast_status_not_ok (lon lat : float) (resp : Response)
  (B : string) :
  network (forecast_url fmt_f lon lat) = inr resp ->
  StatusCode resp <> StatusOK ->
  Body resp = inr B ->
  exists e trace,
    GetForecast network fmt_f decode lon lat = ((None, Some e), trace) /\
    Error e = "status is not ok: " ++ B /\
    contains (Error e) B /\
    (forall buf, ~ In (EvUnmarshal buf) trace) /\
    trace = [EvGet (forecast_url fmt_f lon lat); EvReadAll; EvClose].
Proof.
  intros Hnet Hst Hbody.
  exists (fmt_Errorf ("status is not ok: " ++ B)).
  exists [EvGet (forecast_url fmt_f lon lat); EvReadAll; EvClose].
  split; [|split; [reflexivity|split; [|split; [|reflexivity]]]].
  - unfold GetForecast, http_Get, iobind. rewrite Hnet.
    unfold defer, io_ReadAll, iobind. rewrite Hbody.
    replace (StatusCode resp =? StatusOK) with false
      by (symmetry; apply Z.eqb_neq; exact Hst).
    reflexivity.
  - exists "status is not ok: ", "". cbn [Error].
    rewrite append_nil_r. reflexivity.
  - intros buf Hin. cbn [In] in Hin.
    destruct Hin as [H|[H|[H|H]]]; try discriminate H. exact H.
Qed.

(** * Further properties of the accessors *)

Lemma fmap_panic {A B : Type} (f : A -> B) (r : result A) :
  fmap f r = Panic <-> r = Panic.
Proof.
  destruct r as [a|]; cbn [fmap bind]; split; intros H;
    try discriminate H; reflexivity.
Qed.

Lemma Float64_panic_hollow (i : TimeSeriesItem Time) (X : string) :
  TimeSeriesItem_Float64 i X = Panic <-> hollow i X.
Proof.
  unfold TimeSeriesItem_Float64, hollow. rewrite Float64_range_first.
  destruct (first_named (Parameters i) X) as [p|] eqn:E; split.
  - intros H. exists p. split; [reflexivity|].
    destruct (Values p) as [|v rest]; [reflexivity|].
    rewrite index_head in H. discriminate H.
  - intros [q [Hq Hv]]. injection Hq as <-. rewrite Hv. apply index_empty.
  - intros H. discriminate H.
  - intros [q [Hq _]]. discriminate Hq.
Qed.

(** X1: [Float64 X] and [Int X] panic in exactly one situation: the first
    parameter named [X] exists and its [Values] is empty. *)
Theorem lookup_panics_iff_hollow (i : TimeSeriesItem Time) (X : string) :
  (TimeSeriesItem_Float64 i X = Panic <->
   exists p, first_named (Parameters i) X = Some p /\ Values p = []) /\
  (TimeSeriesItem_Int int_unrepresentable i X = Panic <->
   exists p, first_named (Parameters i) X = Some p /\ Values p = []).
Proof.
  split; [apply Float64_panic_hollow|].
  rewrite Int_fmap_Float64, fmap_panic. apply Float64_panic_hollow.
Qed.

Lemma first_named_filter (ps : list Parameter_) (X : string) :
  first_named (filter (fun p => String.eqb (Name p) X) ps) X
  = first_named ps X.
Proof.
  induction ps as [|q ps IH]; cbn [filter first_named find]; [reflexivity|].
  destruct (String.eqb (Name q) X) eqn:E.
  - cbn [first_named find]. rewrite E. reflexivity.
  - exact IH.
Qed.

(** X2: parameters with other names do not matter: dropping every
    parameter not named [X] from the item changes neither [Float64 X] nor
    [Int X]. *)
Theorem lookup_ignores_other_names (i : TimeSeriesItem Time) (X : string) :
  let only :=
    mkTimeSeriesItem (ValidTime i)
      (filter (fun p => String.eqb (Name p) X) (Parameters i)) in
  TimeSeriesItem_Float64 only X = TimeSeriesItem_Float64 i X /\
  TimeSeriesItem_Int int_unrepresentable only X
  = TimeSeriesItem_Int int_unrepresentable i X.
Proof.
  cbv zeta. unfold TimeSeriesItem_Float64, TimeSeriesItem_Int.
  cbn [Parameters].
  rewrite !Float64_range_first, !Int_range_first, first_named_filter.
  split; reflexivity.
Qed.

Lemma first_named_app (pre rest : list Parameter_) (X : string) :
  first_named (pre ++ rest)%list X =
  match first_named pre X with
  | Some p => Some p
  | None => first_named rest X
  end.
Proof.
  induction pre as [|q pre IH]; cbn [app first_named find]; [reflexivity|].
  destruct (String.eqb (Name q) X); [reflexivity|exact IH].
Qed.

(** X3: lookup over a concatenation: when some parameter of [pre] is named
    [X], what follows [pre] is never read; when none is, [pre] is skipped
    and the lookup is that of the rest. *)
Theorem Float64_app (t : Time) (pre rest : list Parameter_) (X : string) :
  ((exists q, In q pre /\ Name q = X) ->
   TimeSeriesItem_Float64 (mkTimeSeriesItem t (pre ++ rest)%list) X
   = TimeSeriesItem_Float64 (mkTimeSeriesItem t pre) X) /\
  ((forall q, In q pre -> Name q <> X) ->
   TimeSeriesItem_Float64 (mkTimeSeriesItem t (pre ++ rest)%list) X
   = TimeSeriesItem_Float64 (mkTimeSeriesItem t rest) X).
Proof.
  unfold TimeSeriesItem_Float64. cbn [Parameters].
  rewrite !Float64_range_first, first_named_app. split.
  - intros [q [Hin Hq]].
    destruct (first_named pre X) as [p|] eqn:E; [reflexivity|].
    exfalso. unfold first_named in E.
    apply (find_none _ _ E) in Hin. apply String.eqb_neq in Hin.
    contradiction.
  - intros Hno. rewrite (first_named_none pre X Hno). reflexivity.
Qed.

Lemma table_value_at (n : nat) (s : WeatherSymbol) :
  nth_error WeatherSymbols n = Some s -> Value s = Z.of_nat n.
Proof.
  do 28 (destruct n as [|n];
         [intros H; injection H as <-; reflexivity|]).
  cbn. destruct n; discriminate.
Qed.

Lemma no_weather_is_entry_0 (s : WeatherSymbol) :
  In s WeatherSymbols -> Meaning s = "No weather" -> Value s = 0.
Proof.
  intros Hs Hm. cbn [WeatherSymbols In] in Hs.
  repeat (destruct Hs as [Hs|Hs];
          [subst s; first [reflexivity|discriminate Hm]|]).
  contradiction.
Qed.

(** X4: whatever the item, a symbol returned by [WeatherSymbol] is either
    the zero value or the table entry at the item's code [c], with
    [1 <= c <= 27] and [Value = c]; the entry at index 0, "No weather", is
    never returned. *)
Theorem WeatherSymbol_result (i : TimeSeriesItem Time) (s : WeatherSymbol) :
  TimeSeriesItem_WeatherSymbol int_unrepresentable i = Ok s ->
  (s = WeatherSymbol_zero \/
   exists c, TimeSeriesItem_Int int_unrepresentable i "Wsymb2" = Ok c /\
     1 <= c <= 27 /\ index WeatherSymbols c = Ok s /\ Value s = c) /\
  Meaning s <> "No weather".
Proof.
  intros H.
  assert (Hcases :
    s = WeatherSymbol_zero \/
    exists c, TimeSeriesItem_Int int_unrepresentable i "Wsymb2" = Ok c /\
      1 <= c <= 27 /\ index WeatherSymbols c = Ok s /\ Value s = c).
  { unfold TimeSeriesItem_WeatherSymbol in H.
    destruct (TimeSeriesItem_Int int_unrepresentable i "Wsymb2") as [c|];
      [|discriminate H].
    cbn [bind] in H. rewrite len_WeatherSymbols in H.
    destruct (1 <=? c) eqn:E1; [destruct (c <? 28) eqn:E2|]; cbn [andb] in H.
    - right. exists c. apply Z.leb_le in E1. apply Z.ltb_lt in E2.
      split; [reflexivity|]. split; [lia|]. split; [exact H|].
      destruct (index_in_range WeatherSymbols c) as [a [Hn Ha]];
        [rewrite len_WeatherSymbols; lia|].
      rewrite Ha in H. injection H as <-.
      rewrite (table_value_at _ _ Hn). lia.
    - left. injection H as <-. reflexivity.
    - left. injection H as <-. reflexivity. }
  split; [exact Hcases|].
  destruct Hcases as [->|[c [_ [Hc [Hi Hv]]]]]; [discriminate|].
  intros Hm.
  destruct (index_in_range WeatherSymbols c) as [a [Hn Ha]];
    [rewrite len_WeatherSymbols; lia|].
  rewrite Ha in Hi. injection Hi as ->.
  apply nth_error_In in Hn.
  pose proof (no_weather_is_entry_0 s Hn Hm) as H0. lia.
Qed.

(** * The parameter catalog *)

Lemma catalog_entries_named :
  Forall (fun kv => Catalog.Name (snd kv) = fst kv)
         Catalog.ParameterDescriptions.
Proof. repeat constructor. Qed.

Lemma catalog_lookup_In (k : string) (d : Catalog.ParameterDescription) :
  Catalog.lookup k = Some d -> In (k, d) Catalog.ParameterDescriptions.
Proof.
  unfold Catalog.lookup. intros H.
  destruct (find (fun kv => String.eqb (fst kv) k)
                 Catalog.ParameterDescriptions) as [[k' d']|] eqn:E;
    [|discriminate H].
  cbn [option_map snd] in H. injection H as ->.
  apply find_some in E. destruct E as [Hin Hk]. cbn [fst] in Hk.
  apply String.eqb_eq in Hk. subst k'. exact Hin.
Qed.

(** X5: the catalog has 19 entries under 19 different keys, and looking up
    a key, which succeeds exactly for those 19, yields a description whose
    [Name] is that key. *)
Theorem catalog_keys_are_names :
  len Catalog.ParameterDescriptions = 19 /\
  NoDup Catalog.keys /\
  (forall k d, Catalog.lookup k = Some d -> Catalog.Name d = k) /\
  (forall k, In k Catalog.keys <-> exists d, Catalog.lookup k = Some d).
Proof.
  split; [reflexivity|]. split; [|split].
  - unfold Catalog.keys. cbn [map fst Catalog.ParameterDescriptions].
    repeat (constructor;
            [cbn [In]; intros H;
             repeat (destruct H as [H|H]; [discriminate H|]); exact H|]).
    constructor.
  - intros k d H. apply catalog_lookup_In in H.
    apply (proj1 (Forall_forall _ _) catalog_entries_named (k, d) H).
  - intros k. split.
    + intros Hin. unfold Catalog.keys in Hin. apply in_map_iff in Hin.
      destruct Hin as [[k' d'] [Hk Hin]]. cbn [fst] in Hk. subst k'.
      unfold Catalog.lookup.
      destruct (find (fun kv => String.eqb (fst kv) k)
                     Catalog.ParameterDescriptions) as [[k2 d2]|] eqn:E.
      * exists d2. reflexivity.
      * apply (find_none _ _ E) in Hin. cbn [fst] in Hin.
        rewrite String.eqb_refl in Hin. discriminate Hin.
    + intros [d H]. apply catalog_lookup_In in H.
      unfold Catalog.keys. apply in_map_iff. exists (k, d).
      split; [reflexivity|exact H].
Qed.

Lemma Wsymb2_not_a_key : ~ In "Wsymb2" Catalog.keys.
Proof.
  cbn [Catalog.keys map fst Catalog.ParameterDescriptions In]. intros H.
  repeat (destruct H as [H|H]; [discriminate H|]). exact H.
Qed.

(** X6: the names read by [Temperature], [MaxPrecipitation] and
    [WindSpeed] are keys of the catalog, the name read by [WeatherSymbol]
    is not (the catalog spells it wsymb2): an item all of whose parameters
    are named by catalog keys gets the zero-value symbol. *)
Theorem catalog_names_give_no_symbol (i : TimeSeriesItem Time) :
  (forall p, In p (Parameters i) -> In (Name p) Catalog.keys) ->
  TimeSeriesItem_WeatherSymbol int_unrepresentable i = Ok WeatherSymbol_zero /\
  In "t" Catalog.keys /\ In "pmax" Catalog.keys /\ In "ws" Catalog.keys /\
  In "wsymb2" Catalog.keys /\ ~ In "Wsymb2" Catalog.keys.
Proof.
  intros Hkeys. split.
  - apply (lookup_zero i 0); [|lia]. apply Int_no_match.
    intros p Hp Hn. apply Wsymb2_not_a_key. rewrite <- Hn.
    apply Hkeys, Hp.
  - repeat split; try apply Wsymb2_not_a_key;
      cbn [Catalog.keys map fst Catalog.ParameterDescriptions In];
      repeat (try (left; reflexivity); right).
Qed.

(** * Further properties of the fetch client *)

(** [GetForecast] path by path. *)
Lemma GetForecast_paths (lon lat : float) :
  GetForecast network fmt_f decode lon lat =
  let url := forecast_url fmt_f lon lat in
  match network url with
  | inl err => ((None, Some err), [EvGet url])
  | inr resp =>
      match Body resp with
      | inl err => ((None, Some err), [EvGet url; EvReadAll; EvClose])
      | inr buf =>
          if StatusCode resp =? StatusOK then
            match decode buf with
            | inl err =>
                ((None, Some err),
                 [EvGet url; EvReadAll; EvUnmarshal buf; EvClose])
            | inr forecast =>
                ((Some forecast, None),
                 [EvGet url; EvReadAll; EvUnmarshal buf; EvClose])
            end
          else
            ((None, Some (fmt_Errorf ("status is not ok: " ++ buf))),
             [EvGet url; EvReadAll; EvClose])
      end
  end.
Proof.
  cbv zeta. unfold GetForecast, http_Get, iobind.
  destruct (network (forecast_url fmt_f lon lat)) as [err|resp];
    [reflexivity|].
  unfold defer, io_ReadAll, iobind.
  destruct (Body resp) as [err|buf]; [reflexivity|].
  destruct (StatusCode resp =? StatusOK); cbn [negb]; [|reflexivity].
  unfold json_Unmarshal. destruct (decode buf); reflexivity.
Qed.

(** X7: when the request itself fails, [GetForecast] returns that error
    and no Forecast, and does nothing else: no body is read or closed and
    the decoder is not called. *)
Theorem GetForecast_transport_error (lon lat : float) (err : error) :
  network (forecast_url fmt_f lon lat) = inl err ->
  GetForecast network fmt_f decode lon lat =
  ((None, Some err), [EvGet (forecast_url fmt_f lon lat)]).
Proof.
  intros H. rewrite GetForecast_paths. cbv zeta. rewrite H. reflexivity.
Qed.

(** X8: the body is read before the status is looked at: when reading it
    fails, the read error is returned whatever the status, 200 included,
    the decoder is not called, and the body is closed. *)
Theorem GetForecast_read_error (lon lat : float) (resp : Response)
  (err : error) :
  network (forecast_url fmt_f lon lat) = inr resp ->
  Body resp = inl err ->
  GetForecast network fmt_f decode lon lat =
  ((None, Some err),
   [EvGet (forecast_url fmt_f lon lat); EvReadAll; EvClose]).
Proof.
  intros Hn Hb. rewrite GetForecast_paths. cbv zeta. rewrite Hn, Hb.
  reflexivity.
Qed.

(** X9: with status 200 and a body that reads as [B], the result is what
    the decoder makes of [B]: the decoded Forecast and a nil error, or no
    Forecast and the decoder's error; the decoder is called once, on [B],
    and the body is closed after it. *)
Theorem GetForecast_status_ok (lon lat : float) (resp : Response)
  (B : string) :
  network (forecast_url fmt_f lon lat) = inr resp ->
  StatusCode resp = StatusOK ->
  Body resp = inr B ->
  GetForecast network fmt_f decode lon lat =
  (match decode B with
   | inl err => (None, Some err)
   | inr forecast => (Some forecast, None)
   end,
   [EvGet (forecast_url fmt_f lon lat); EvReadAll; EvUnmarshal B; EvClose]).
Proof.
  intros Hn Hs Hb. rewrite GetForecast_paths. cbv zeta.
  rewrite Hn, Hb, Hs, Z.eqb_refl. destruct (decode B); reflexivity.
Qed.

Lemma GetForecast_forecast_xor_error_aux (lon lat : float) :
  (exists f, fst (GetForecast network fmt_f decode lon lat) = (Some f, None))
  \/
  (exists e, fst (GetForecast network fmt_f decode lon lat) = (None, Some e)).
Proof.
  rewrite GetForecast_paths. cbv zeta.
  destruct (network (forecast_url fmt_f lon lat)) as [err|resp];
    [right; exists err; reflexivity|].
  destruct (Body resp) as [err|buf]; [right; exists err; reflexivity|].
  destruct (StatusCode resp =? StatusOK); [|right; eexists; reflexivity].
  destruct (decode buf) as [err|forecast];
    [right; exists err; reflexivity|left; exists forecast; reflexivity].
Qed.

(** X10: [GetForecast] returns a Forecast or an error, never both and
    never neither; and it returns a Forecast only when the request
    succeeded with status 200 and the decoder accepted the body. *)
Theorem GetForecast_forecast_xor_error (lon lat : float) :
  ((exists f, fst (GetForecast network fmt_f decode lon lat) = (Some f, None))
   \/
   (exists e, fst (GetForecast network fmt_f decode lon lat) = (None, Some e)))
  /\
  (forall f, fst (fst (GetForecast network fmt_f decode lon lat)) = Some f ->
     exists resp B,
       network (forecast_url fmt_f lon lat) = inr resp /\
       StatusCode resp = StatusOK /\ Body resp = inr B /\
       decode B = inr f).
Proof.
  rewrite GetForecast_paths. cbv zeta.
  destruct (network (forecast_url fmt_f lon lat)) as [err|resp];
    [split; [right; exists err; reflexivity|intros f H; discriminate H]|].
  destruct (Body resp) as [err|buf] eqn:Hb;
    [split; [right; exists err; reflexivity|intros f H; discriminate H]|].
  destruct (StatusCode resp =? StatusOK) eqn:Hs;
    [|split; [right; eexists; reflexivity|intros f H; discriminate H]].
  apply Z.eqb_eq in Hs.
  destruct (decode buf) as [err|forecast] eqn:Hd;
    [split; [right; exists err; reflexivity|intros f H; discriminate H]|].
  split; [left; exists forecast; reflexivity|].
  intros f H. cbn [fst] in H. injection H as <-.
  exists resp, buf. repeat split; assumption.
Qed.

Lemma GetForecast_trace (lon lat : float) :
  snd (GetForecast network fmt_f decode lon lat) =
  match network (forecast_url fmt_f lon lat) with
  | inl _ => [EvGet (forecast_url fmt_f lon lat)]
  | inr resp =>
      (EvGet (forecast_url fmt_f lon lat) :: EvReadAll ::
       match Body resp with
       | inl _ => []
       | inr buf =>
           if StatusCode resp =? StatusOK then [EvUnmarshal buf] else []
       end ++ [EvClose])%list
  end.
Proof.
  rewrite GetForecast_paths. cbv zeta.
  destruct (network (forecast_url fmt_f lon lat)) as [err|resp];
    [reflexivity|].
  destruct (Body resp) as [err|buf]; [reflexivity|].
  destruct (StatusCode resp =? StatusOK); [|reflexivity].
  destruct (decode buf); reflexivity.
Qed.

(** X11: every call makes exactly one request, first of all; the body is
    closed exactly when the request succeeded, then exactly once and as
    the last thing the function does, on every path. *)
Theorem GetForecast_closes_body (lon lat : float) :
  (exists rest,
     snd (GetForecast network fmt_f decode lon lat)
     = EvGet (forecast_url fmt_f lon lat) :: rest /\
     forall u, ~ In (EvGet u) rest) /\
  (forall err, network (forecast_url fmt_f lon lat) = inl err ->
     ~ In EvClose (snd (GetForecast network fmt_f decode lon lat))) /\
  (forall resp, network (forecast_url fmt_f lon lat) = inr resp ->
     exists before,
       snd (GetForecast network fmt_f decode lon lat)
       = (before ++ [EvClose])%list /\
       ~ In EvClose before).
Proof.
  rewrite GetForecast_trace.
  destruct (network (forecast_url fmt_f lon lat)) as [err|resp].
  - split; [|split].
    + exists []. split; [reflexivity|]. intros u [].
    + intros _ _ H. cbn in H. destruct H as [H|[]]. discriminate H.
    + intros resp H. discriminate H.
  - set (mid := match Body resp with
                | inl _ => []
                | inr buf =>
                    if StatusCode resp =? StatusOK then [EvUnmarshal buf]
                    else []
                end).
    assert (Hmid : forall x, In x mid -> exists buf, x = EvUnmarshal buf).
    { unfold mid. destruct (Body resp) as [err|buf]; [intros x []|].
      destruct (StatusCode resp =? StatusOK); [|intros x []].
      intros x [<-|[]]. exists buf. reflexivity. }
    split; [|split].
    + eexists. split; [reflexivity|].
      intros u H. cbn [In] in H. destruct H as [H|H]; [discriminate H|].
      apply in_app_or in H. destruct H as [H|[H|[]]]; [|discriminate H].
      destruct (Hmid _ H) as [buf Hb]. discriminate Hb.
    + intros err H. discriminate H.
    + intros _ _.
      exists (EvGet (forecast_url fmt_f lon lat) :: EvReadAll :: mid).
      split; [reflexivity|].
      intros H. cbn [In] in H.
      destruct H as [H|[H|H]]; try discriminate H.
      destruct (Hmid _ H) as [buf Hb]. discriminate Hb.
Qed.

(** * The command line tool *)

Lemma WeatherSymbol_panic_hollow (i : TimeSeriesItem Time) :
  TimeSeriesItem_WeatherSymbol int_unrepresentable i = Panic <->
  hollow i "Wsymb2".
Proof.
  rewrite <- Float64_panic_hollow, <- (fmap_panic (int int_unrepresentable)),
    <- Int_fmap_Float64.
  unfold TimeSeriesItem_WeatherSymbol.
  destruct (TimeSeriesItem_Int int_unrepresentable i "Wsymb2") as [c|];
    cbn [bind]; [|split; reflexivity].
  split; [|intros H; discriminate H].
  rewrite len_WeatherSymbols.
  destruct (1 <=? c) eqn:E1; [destruct (c <? 28) eqn:E2|]; cbn [andb];
    try (intros H; discriminate H).
  apply Z.leb_le in E1. apply Z.ltb_lt in E2.
  destruct (index_in_range WeatherSymbols c) as [a [_ Ha]];
    [rewrite len_WeatherSymbols; lia|].
  rewrite Ha. intros H. discriminate H.
Qed.

Lemma table_row_ok (item : TimeSeriesItem Time) :
  (exists r, table_row int_unrepresentable fmt_time fmt_1f item = Ok r) <->
  (forall X, In X printed_names -> ~ hollow item X).
Proof.
  unfold table_row, TimeSeriesItem_Temperature,
    TimeSeriesItem_MaxPrecipitation, TimeSeriesItem_WindSpeed.
  pose proof (WeatherSymbol_panic_hollow item) as Hs.
  pose proof (Float64_panic_hollow item "t") as Ht.
  pose proof (Float64_panic_hollow item "pmax") as Hp.
  pose proof (Float64_panic_hollow item "ws") as Hw.
  destruct (TimeSeriesItem_WeatherSymbol int_unrepresentable item) as [s|];
    cbn [bind].
  2: { split; [intros [r H]; discriminate H|].
       intros H. exfalso. apply (H "Wsymb2"); [left; reflexivity|].
       apply Hs. reflexivity. }
  destruct (TimeSeriesItem_Float64 item "t") as [t|]; cbn [bind].
  2: { split; [intros [r H]; discriminate H|].
       intros H. exfalso. apply (H "t"); [right; left; reflexivity|].
       apply Ht. reflexivity. }
  destruct (TimeSeriesItem_Float64 item "pmax") as [pm|]; cbn [bind].
  2: { split; [intros [r H]; discriminate H|].
       intros H. exfalso. apply (H "pmax"); [do 2 right; left; reflexivity|].
       apply Hp. reflexivity. }
  destruct (TimeSeriesItem_Float64 item "ws") as [w|]; cbn [bind].
  2: { split; [intros [r H]; discriminate H|].
       intros H. exfalso. apply (H "ws"); [do 3 right; left; reflexivity|].
       apply Hw. reflexivity. }
  split; [|intros _; eexists; reflexivity].
  intros _ X HX Hh. cbn [printed_names In] in HX.
  destruct HX as [<-|[<-|[<-|[<-|[]]]]].
  - apply Hs in Hh. discriminate Hh.
  - apply Ht in Hh. discriminate Hh.
  - apply Hp in Hh. discriminate Hh.
  - apply Hw in Hh. discriminate Hh.
Qed.

Lemma table_rows_ok (items : list (TimeSeriesItem Time)) :
  (exists rs, table_rows int_unrepresentable fmt_time fmt_1f items = Ok rs)
  <->
  (forall item, In item items ->
     exists r, table_row int_unrepresentable fmt_time fmt_1f item = Ok r).
Proof.
  induction items as [|item items IH]; cbn [table_rows].
  - split; [intros _ item []|intros _; exists []; reflexivity].
  - split.
    + intros [rs H].
      destruct (table_row int_unrepresentable fmt_time fmt_1f item)
        as [r|] eqn:Er; [|discriminate H].
      cbn [bind] in H.
      destruct (table_rows int_unrepresentable fmt_time fmt_1f items)
        as [rs'|] eqn:Ers; [|discriminate H].
      intros it [<-|Hin]; [exists r; exact Er|].
      apply (proj1 IH); [exists rs'; reflexivity|exact Hin].
    + intros H.
      destruct (H item (or_introl eq_refl)) as [r Hr]. rewrite Hr.
      destruct (proj2 IH (fun it Hit => H it (or_intror Hit))) as [rs Hrs].
      rewrite Hrs. eexists. reflexivity.
Qed.


(** X12: [printForecast] reaches its [Flush] exactly when, in every item
    of the series, the first parameter named Wsymb2, t, pmax or ws, where
    there is one, has at least one value; parameters with other names and
    missing parameters never make it panic. *)
Theorem printForecast_flushes_iff (f : Forecast Time) :
  (exists lines,
     printForecast int_unrepresentable fmt_time fmt_1f (Some f) = Ok lines)
  <->
  (forall item, In item (TimeSeries f) ->
   forall X, In X ["Wsymb2"; "t"; "pmax"; "ws"] ->
   forall p, first_named (Parameters item) X = Some p -> Values p <> []).
Proof.
  unfold printForecast.
  assert (Hrows :
    (exists rs, table_rows int_unrepresentable fmt_time fmt_1f
                  (TimeSeries f) = Ok rs) <->
    (forall item, In item (TimeSeries f) ->
     forall X, In X printed_names -> ~ hollow item X)).
  { rewrite table_rows_ok. split; intros H item Hin.
    - apply (proj1 (table_row_ok item)), H, Hin.
    - apply (proj2 (table_row_ok item)), H, Hin. }
  split.
  - intros [lines H].
    destruct (table_rows int_unrepresentable fmt_time fmt_1f (TimeSeries f))
      as [rs|] eqn:E; [|discriminate H].
    intros item Hin X HX p Hp Hv.
    apply (proj1 Hrows (ex_intro _ rs eq_refl) item Hin X HX).
    exists p. split; assumption.
  - intros H.
    destruct (proj2 Hrows) as [rs Hrs].
    + intros item Hin X HX [p [Hp Hv]]. apply (H item Hin X HX p Hp Hv).
    + rewrite Hrs. eexists. reflexivity.
Qed.



Lemma no_file_in_lib (trace : list event) (name : string) :
  ~ In (EvReadFile name) (map Lib trace).
Proof.
  intros H. apply in_map_iff in H. destruct H as [e [He _]]. discriminate He.
Qed.

(** X14: with a file name given, [run] never touches the network and
    ignores the coordinates: it starts by reading that file and makes no
    request, and its result is the same for every network and every
    longitude and latitude. *)
Theorem run_file_mode (lon lat : float) (name : string) :
  name <> "" ->
  (exists rest,
     snd (run int_unrepresentable network fmt_f decode fmt_time fmt_1f files
            lon lat name) = EvReadFile name :: rest /\
     forall e, In (Lib e) rest -> exists buf, e = EvUnmarshal buf) /\
  (forall network' fmt_f' lon' lat',
     run int_unrepresentable network' fmt_f' decode fmt_time fmt_1f files
       lon' lat' name
     = run int_unrepresentable network fmt_f decode fmt_time fmt_1f files
         lon lat name).
Proof.
  intros Hname. unfold run.
  replace (String.eqb name "") with false
    by (symmetry; apply String.eqb_neq; exact Hname).
  cbn [negb]. split; [|reflexivity].
  destruct (files name) as [err|buf].
  - exists []. split; [reflexivity|]. intros e [].
  - destruct (decode buf) as [err|forecast].
    + eexists. split; [reflexivity|].
      intros e [H|[]]. injection H as <-. exists buf. reflexivity.
    + destruct (printForecast int_unrepresentable fmt_time fmt_1f
                  (Some forecast)) as [lines|].
      * eexists. split; [reflexivity|].
        intros e [H|[H|[]]]; [|discriminate H].
        injection H as <-. exists buf. reflexivity.
      * eexists. split; [reflexivity|].
        intros e [H|[]]. injection H as <-. exists buf. reflexivity.
Qed.

(** X15: without a file name, [run] reads no file, does first exactly what
    [GetForecast] does, returns the error of [GetForecast] when there is
    one without printing anything, and otherwise prints the Forecast it
    got: the pointer it hands to [printForecast] is never nil. *)
Theorem run_fetch_mode (lon lat : float) :
  let got := GetForecast network fmt_f decode lon lat in
  let ran := run int_unrepresentable network fmt_f decode fmt_time fmt_1f
               files lon lat "" in
  (forall name, ~ In (EvReadFile name) (snd ran)) /\
  (forall e, snd (fst got) = Some e ->
     ran = (Ok (Some e), map Lib (snd got))) /\
  (snd (fst got) = None ->
     exists f, fst (fst got) = Some f /\
       ran = match printForecast int_unrepresentable fmt_time fmt_1f (Some f)
             with
             | Ok lines =>
                 (Ok None, (map Lib (snd got) ++ [EvFlush lines])%list)
             | Panic => (Panic, map Lib (snd got))
             end).
Proof.
  cbv zeta. unfold run. cbn [String.eqb negb].
  destruct (GetForecast_forecast_xor_error_aux lon lat) as [[f Hf]|[e He]];
    destruct (GetForecast network fmt_f decode lon lat) as [[fo eo] trace];
    cbn [fst snd] in *.
  - injection Hf as -> ->. split; [|split].
    + intros name H.
      destruct (printForecast int_unrepresentable fmt_time fmt_1f (Some f));
        [apply in_app_or in H; destruct H as [H|[H|[]]];
         [apply no_file_in_lib in H; exact H|discriminate H]
        |apply no_file_in_lib in H; exact H].
    + intros e H. discriminate H.
    + intros _. exists f. split; reflexivity.
  - injection He as -> ->. split; [|split].
    + intros name H. apply no_file_in_lib in H. exact H.
    + intros e' H. injection H as <-. reflexivity.
    + intros H. discriminate H.
Qed.




(** X17: end to end, without a file name: when the response has a status
    other than 200 and its body reads as [B], the tool requests, reads and
    closes, writes "status is not ok: " followed by [B] and a newline to
    the error stream, prints no table and exits with status 1. *)
Theorem main_status_not_ok (lon lat : float) (resp : Response) (B : string) :
  network (forecast_url fmt_f lon lat) = inr resp ->
  StatusCode resp <> StatusOK ->
  Body resp = inr B ->
  main int_unrepresentable network fmt_f decode fmt_time fmt_1f files
    lon lat ""
  = (Exit1,
     [Lib (EvGet (forecast_url fmt_f lon lat)); Lib EvReadAll; Lib EvClose;
      EvStderr (("status is not ok: " ++ B) ++ newline)]).
Proof.
  intros Hn Hs Hb. unfold main, run. cbn [String.eqb negb].
  rewrite GetForecast_paths. cbv zeta. rewrite Hn, Hb.
  replace (StatusCode resp =? StatusOK) with false
    by (symmetry; apply Z.eqb_neq; exact Hs).
  reflexivity.
Qed.

End Properties.

(** ** Concrete runs of the statements *)

Lemma WeatherSymbols_dense_witness :
  exists s, index WeatherSymbols 19 = Ok s /\ Value s = 19.
Proof.
  apply (proj1 (proj2 WeatherSymbols_dense) 19). lia.
Defined.

Lemma FixedWidth_table_witness :
  WeatherSymbol_FixedWidth (mkWeatherSymbol 19 "Moderate rain" (utf8 0x1f327) 1)
    = bytes [0xF0; 0x9F; 0x8C; 0xA7] ++ " " /\
  WeatherSymbol_FixedWidth (mkWeatherSymbol 2 "Nearly clear sky" (utf8 0x26c5) 2)
    = bytes [0xE2; 0x9B; 0x85] ++ utf8 0x200b.
Proof.
  split.
  - apply (proj1 (FixedWidth_table
                    (mkWeatherSymbol 19 "Moderate rain" (utf8 0x1f327) 1)
                    ltac:(in_table))).
    reflexivity.
  - apply (proj1 (proj2 (FixedWidth_table
                    (mkWeatherSymbol 2 "Nearly clear sky" (utf8 0x26c5) 2)
                    ltac:(in_table)))).
    reflexivity.
Defined.

Lemma Float64_first_match_witness :
  TimeSeriesItem_Float64 bare_item "t" = Ok 0%float /\
  TimeSeriesItem_Float64 repeated_item "t" = Ok (-2.6)%float.
Proof.
  split.
  - apply (proj1 (Float64_first_match instant bare_item "t")). all_named.
  - apply (proj2 (Float64_first_match instant repeated_item "t")
             [] (mkParameter "t" "hl" 2 "Cel" [(-2.6)%float; 9.5%float])
             [mkParameter "t" "hl" 2 "Cel" [18.6%float];
              mkParameter "pmax" "hl" 0 "kg/m2/h" [2.6%float];
              mkParameter "ws" "hl" 10 "m/s" [5.6%float];
              mkParameter "Wsymb2" "hl" 0 "category" [19%float]]
             eq_refl ltac:(intros q []) eq_refl) with (rest := [9.5%float]).
    reflexivity.
Defined.

Lemma Int_truncates_Float64_witness :
  TimeSeriesItem_Int amd64 bare_item "ws" = Ok 0 /\
  TimeSeriesItem_Int amd64 fixture_item "ws" = Ok 5 /\
  TimeSeriesItem_Int amd64 repeated_item "t" = Ok (-2).
Proof.
  split; [|split].
  - apply (proj1 (proj2 (Int_truncates_Float64 instant amd64 bare_item "ws"))).
    all_named.
  - apply (proj2 (proj2 (Int_truncates_Float64 instant amd64 fixture_item "ws"))
             5.6%float 5); [reflexivity|reflexivity|].
    unfold int_min, int_max. lia.
  - apply (proj2 (proj2 (Int_truncates_Float64 instant amd64 repeated_item "t"))
             (-2.6)%float (-2)); [reflexivity|reflexivity|].
    unfold int_min, int_max. lia.
Defined.

Lemma WeatherSymbol_lookup_witness :
  (exists s, nth_error WeatherSymbols 19 = Some s /\
             TimeSeriesItem_WeatherSymbol amd64 fixture_item = Ok s) /\
  TimeSeriesItem_WeatherSymbol amd64 code28_item =
    Ok (mkWeatherSymbol 0 "" "" 0).
Proof.
  split.
  - apply (proj1 (WeatherSymbol_lookup instant amd64 fixture_item 19 eq_refl)).
    lia.
  - apply (proj2 (WeatherSymbol_lookup instant amd64 code28_item 28 eq_refl)).
    lia.
Defined.

Lemma FixedWidth_unknown_witness :
  (exists z, TimeSeriesItem_WeatherSymbol amd64 bare_item = Ok z /\
     z = WeatherSymbol_zero /\
     WeatherSymbol_FixedWidth z = bytes [0xE2; 0x80; 0x8B] /\
     bytes [0xE2; 0x80; 0x8B] = utf8 0x200b /\
     FixedWidth_columns z = 0) /\
  (exists z, TimeSeriesItem_WeatherSymbol amd64 code28_item = Ok z /\
     z = WeatherSymbol_zero /\
     WeatherSymbol_FixedWidth z = bytes [0xE2; 0x80; 0x8B] /\
     bytes [0xE2; 0x80; 0x8B] = utf8 0x200b /\
     FixedWidth_columns z = 0).
Proof.
  split.
  - refine (proj1 (FixedWidth_unknown instant amd64 bare_item _)).
    right. all_named.
  - refine (proj1 (FixedWidth_unknown instant amd64 code28_item _)).
    left. exists 28. split; [reflexivity|lia].
Defined.

Lemma accessors_total_witness :
  (exists v, TimeSeriesItem_Float64 fixture_item "t" = Ok v) /\
  (exists n, TimeSeriesItem_Int amd64 fixture_item "t" = Ok n) /\
  (exists s, TimeSeriesItem_WeatherSymbol amd64 fixture_item = Ok s).
Proof.
  apply (accessors_total instant amd64 fixture_item). all_named.
Defined.

Lemma fixture_accessors_witness :
  TimeSeriesItem_Temperature fixture_item = Ok 18.6%float /\
  TimeSeriesItem_MaxPrecipitation fixture_item = Ok 2.6%float /\
  TimeSeriesItem_WindSpeed fixture_item = Ok 5.6%float /\
  exists s, TimeSeriesItem_WeatherSymbol amd64 fixture_item = Ok s /\
    index WeatherSymbols 19 = Ok s /\
    Value s = 19 /\ Meaning s = "Moderate rain" /\
    WeatherSymbol_FixedWidth s = Unicode s ++ " " /\
    WeatherSymbol_FixedWidth s = bytes [0xF0; 0x9F; 0x8C; 0xA7; 0x20].
Proof.
  apply (fixture_accessors instant amd64 fixture_item);
    eexists; split; reflexivity.
Defined.

(** The claim of C4 as worded, with inclusion of the four parameters as its
    only premise, fails on an item that repeats the name t: the first
    parameter named t decides, here with value -2.6. *)
Lemma inclusion_does_not_decide :
  ~ (forall i : TimeSeriesItem instant,
       includes i "t" [18.6%float] ->
       includes i "pmax" [2.6%float] ->
       includes i "ws" [5.6%float] ->
       includes i "Wsymb2" [19%float] ->
       TimeSeriesItem_Temperature i = Ok 18.6%float /\
       TimeSeriesItem_MaxPrecipitation i = Ok 2.6%float /\
       TimeSeriesItem_WindSpeed i = Ok 5.6%float /\
       exists s, TimeSeriesItem_WeatherSymbol amd64 i = Ok s /\
         Value s = 19 /\ Meaning s = "Moderate rain" /\
         WeatherSymbol_FixedWidth s = Unicode s ++ " ").
Proof.
  intros H.
  assert (Ht : TimeSeriesItem_Temperature repeated_item = Ok 18.6%float).
  { apply (H repeated_item).
    - exists (mkParameter "t" "hl" 2 "Cel" [18.6%float]).
      split; [right; left; reflexivity|split; reflexivity].
    - exists (mkParameter "pmax" "hl" 0 "kg/m2/h" [2.6%float]).
      split; [do 2 right; left; reflexivity|split; reflexivity].
    - exists (mkParameter "ws" "hl" 10 "m/s" [5.6%float]).
      split; [do 3 right; left; reflexivity|split; reflexivity].
    - exists (mkParameter "Wsymb2" "hl" 0 "category" [19%float]).
      split; [do 4 right; left; reflexivity|split; reflexivity]. }
  assert (Hr : TimeSeriesItem_Temperature repeated_item = Ok (-2.6)%float)
    by reflexivity.
  rewrite Hr in Ht.
  apply (f_equal (fun r => match r with
                           | Ok x => PrimFloat.eqb x 18.6%float
                           | Panic => true
                           end)) in Ht.
  vm_compute in Ht. discriminate Ht.
Qed.

(** The claim of C9 as worded, truncation toward zero for every value,
    fails on a value beyond the range of [int]: 10^19 is its own
    truncation, and [Int] cannot return it. On amd64 the result is the
    smallest [int]; no implementation whose results are [int]s gives the
    truncation. *)
Lemma Int_beyond_int_range :
  TimeSeriesItem_Float64 huge_item "t" = Ok 1e19%float /\
  truncate 1e19%float = Some (10 ^ 19) /\
  TimeSeriesItem_Int amd64 huge_item "t" = Ok (- 2 ^ 63) /\
  ~ (exists impl : float -> Z,
       (forall f, int_min <= impl f <= int_max) /\
       forall (i : TimeSeriesItem instant) (X : string) (v : float) (z : Z),
         TimeSeriesItem_Float64 i X = Ok v ->
         truncate v = Some z ->
         TimeSeriesItem_Int impl i X = Ok z).
Proof.
  split; [reflexivity|]. split; [reflexivity|]. split; [reflexivity|].
  intros [impl [Hrange H]].
  specialize (H huge_item "t" 1e19%float (10 ^ 19) eq_refl eq_refl).
  apply (f_equal (fun r => match r with Ok z => z | Panic => 0 end)) in H.
  change (impl 1e19%float = 10 ^ 19) in H.
  specialize (Hrange 1e19%float). unfold int_max in Hrange. lia.
Qed.

Lemma GetForecast_status_not_ok_witness :
  exists e trace,
    GetForecast (Time := instant) (fun _ => inr unavailable)
      (fun _ => "0.000000")
      (fun _ => inl (external "encoding/json" "unexpected end of JSON input"))
      0%float 0%float = ((None, Some e), trace) /\
    Error e = "status is not ok: " ++ "service unavailable" /\
    contains (Error e) "service unavailable" /\
    (forall buf, ~ In (EvUnmarshal buf) trace) /\
    trace = [EvGet (forecast_url (fun _ => "0.000000") 0%float 0%float);
             EvReadAll; EvClose].
Proof.
  apply (GetForecast_status_not_ok instant (fun _ => inr unavailable)
           (fun _ => "0.000000")
           (fun _ => inl (external "encoding/json"
                            "unexpected end of JSON input"))
           0%float 0%float unavailable "service unavailable").
  - reflexivity.
  - unfold StatusOK. cbn. lia.
  - reflexivity.
Defined.

(** ** Concrete runs of the further properties *)

Lemma lookup_panics_iff_hollow_witness :
  TimeSeriesItem_Float64 hollow_item "Wsymb2" = Panic /\
  TimeSeriesItem_Int amd64 hollow_item "Wsymb2" = Panic.
Proof.
  split.
  - apply (proj2 (proj1 (lookup_panics_iff_hollow instant amd64 hollow_item
                           "Wsymb2"))).
    exists (mkParameter "Wsymb2" "hl" 0 "category" []).
    split; reflexivity.
  - apply (proj2 (proj2 (lookup_panics_iff_hollow instant amd64 hollow_item
                           "Wsymb2"))).
    exists (mkParameter "Wsymb2" "hl" 0 "category" []).
    split; reflexivity.
Defined.

Lemma Float64_app_witness :
  TimeSeriesItem_Float64
    (mkTimeSeriesItem (1692442800 : instant)
       ([mkParameter "t" "hl" 2 "Cel" [(-2.6)%float; 9.5%float]]
        ++ [mkParameter "t" "hl" 2 "Cel" []])%list) "t"
  = TimeSeriesItem_Float64
      (mkTimeSeriesItem (1692442800 : instant)
         [mkParameter "t" "hl" 2 "Cel" [(-2.6)%float; 9.5%float]]) "t" /\
  TimeSeriesItem_Float64
    (mkTimeSeriesItem (1692442800 : instant)
       ([mkParameter "t" "hl" 2 "Cel" [(-2.6)%float; 9.5%float]]
        ++ [mkParameter "ws" "hl" 10 "m/s" [5.6%float]])%list) "ws"
  = TimeSeriesItem_Float64
      (mkTimeSeriesItem (1692442800 : instant)
         [mkParameter "ws" "hl" 10 "m/s" [5.6%float]]) "ws".
Proof.
  split.
  - apply (proj1 (Float64_app instant 1692442800
                    [mkParameter "t" "hl" 2 "Cel" [(-2.6)%float; 9.5%float]]
                    [mkParameter "t" "hl" 2 "Cel" []] "t")).
    exists (mkParameter "t" "hl" 2 "Cel" [(-2.6)%float; 9.5%float]).
    split; [left; reflexivity|reflexivity].
  - apply (proj2 (Float64_app instant 1692442800
                    [mkParameter "t" "hl" 2 "Cel" [(-2.6)%float; 9.5%float]]
                    [mkParameter "ws" "hl" 10 "m/s" [5.6%float]] "ws")).
    intros q [<-|[]]. cbn. discriminate.
Defined.

Lemma WeatherSymbol_result_witness :
  (mkWeatherSymbol 19 "Moderate rain" (utf8 0x1f327) 1 = WeatherSymbol_zero \/
   exists c, TimeSeriesItem_Int amd64 fixture_item "Wsymb2" = Ok c /\
     1 <= c <= 27 /\
     index WeatherSymbols c
     = Ok (mkWeatherSymbol 19 "Moderate rain" (utf8 0x1f327) 1) /\
     Value (mkWeatherSymbol 19 "Moderate rain" (utf8 0x1f327) 1) = c) /\
  Meaning (mkWeatherSymbol 19 "Moderate rain" (utf8 0x1f327) 1)
  <> "No weather".
Proof.
  apply (WeatherSymbol_result instant amd64 fixture_item). reflexivity.
Defined.

Lemma catalog_keys_are_names_witness :
  Catalog.Name
    (Catalog.mkParameterDescription "t" "hl" 2 "C" "Air temperature"
       "Decimal number, one decimal") = "t" /\
  exists d, Catalog.lookup "wsymb2" = Some d.
Proof.
  split.
  - apply (proj1 (proj2 (proj2 catalog_keys_are_names)) "t"). reflexivity.
  - apply (proj1 (proj2 (proj2 (proj2 catalog_keys_are_names)) "wsymb2")).
    cbn [Catalog.keys map fst Catalog.ParameterDescriptions In].
    repeat (try (left; reflexivity); right).
Defined.

Lemma catalog_names_give_no_symbol_witness :
  TimeSeriesItem_WeatherSymbol amd64 catalog_item = Ok WeatherSymbol_zero /\
  In "t" Catalog.keys /\ In "pmax" Catalog.keys /\ In "ws" Catalog.keys /\
  In "wsymb2" Catalog.keys /\ ~ In "Wsymb2" Catalog.keys.
Proof.
  apply (catalog_names_give_no_symbol instant amd64 catalog_item).
  intros p H. cbn [Parameters catalog_item In] in H.
  destruct H as [<-|[<-|[]]];
    cbn [Name Catalog.keys map fst Catalog.ParameterDescriptions In];
    repeat (try (left; reflexivity); right).
Defined.

Lemma GetForecast_transport_error_witness :
  GetForecast net_down six_decimals decode_fixture 0%float 0%float =
  ((None, Some no_route), [EvGet (forecast_url six_decimals 0%float 0%float)]).
Proof.
  apply (GetForecast_transport_error instant net_down six_decimals
           decode_fixture 0%float 0%float no_route).
  reflexivity.
Defined.

Lemma GetForecast_read_error_witness :
  GetForecast net_cut six_decimals decode_fixture 0%float 0%float =
  ((None, Some cut_short),
   [EvGet (forecast_url six_decimals 0%float 0%float); EvReadAll; EvClose]).
Proof.
  apply (GetForecast_read_error instant net_cut six_decimals decode_fixture
           0%float 0%float (mkResponse 200 (inl cut_short)) cut_short);
    reflexivity.
Defined.

Lemma GetForecast_status_ok_witness :
  GetForecast net_200 six_decimals decode_fixture 0%float 0%float =
  ((Some fixture_forecast, None),
   [EvGet (forecast_url six_decimals 0%float 0%float); EvReadAll;
    EvUnmarshal "{}"; EvClose]) /\
  GetForecast net_200 six_decimals decode_fails 0%float 0%float =
  ((None, Some bad_json),
   [EvGet (forecast_url six_decimals 0%float 0%float); EvReadAll;
    EvUnmarshal "{}"; EvClose]).
Proof.
  split.
  - apply (GetForecast_status_ok instant net_200 six_decimals decode_fixture
             0%float 0%float (mkResponse 200 (inr "{}")) "{}"); reflexivity.
  - apply (GetForecast_status_ok instant net_200 six_decimals decode_fails
             0%float 0%float (mkResponse 200 (inr "{}")) "{}"); reflexivity.
Defined.

Lemma GetForecast_forecast_xor_error_witness :
  exists resp B,
    net_200 (forecast_url six_decimals 0%float 0%float) = inr resp /\
    StatusCode resp = StatusOK /\ Body resp = inr B /\
    decode_fixture B = inr fixture_forecast.
Proof.
  apply (proj2 (GetForecast_forecast_xor_error instant net_200 six_decimals
                  decode_fixture 0%float 0%float) fixture_forecast).
  reflexivity.
Defined.

Lemma GetForecast_closes_body_witness :
  ~ In EvClose
      (snd (GetForecast net_down six_decimals decode_fixture 0%float 0%float))
  /\
  exists before,
    snd (GetForecast net_503 six_decimals decode_fixture 0%float 0%float)
    = (before ++ [EvClose])%list /\
    ~ In EvClose before.
Proof.
  split.
  - apply (proj1 (proj2 (GetForecast_closes_body instant net_down six_decimals
                           decode_fixture 0%float 0%float)) no_route).
    reflexivity.
  - apply (proj2 (proj2 (GetForecast_closes_body instant net_503 six_decimals
                           decode_fixture 0%float 0%float)) unavailable).
    reflexivity.
Defined.

Lemma printForecast_flushes_iff_witness :
  (exists lines,
     printForecast amd64 clock one_decimal (Some fixture_forecast) = Ok lines)
  /\
  ~ (exists lines,
       printForecast amd64 clock one_decimal (Some hollow_forecast)
       = Ok lines).
Proof.
  split.
  - apply (proj2 (printForecast_flushes_iff instant amd64 clock one_decimal
                    fixture_forecast)).
    intros item Hitem X HX p Hp.
    cbn [TimeSeries fixture_forecast In] in Hitem.
    cbn [In] in HX.
    destruct Hitem as [<-|[<-|[]]];
      destruct HX as [<-|[<-|[<-|[<-|[]]]]];
      cbn in Hp; try discriminate Hp;
      injection Hp as <-; cbn; discriminate.
  - intros H.
    apply (proj1 (printForecast_flushes_iff instant amd64 clock one_decimal
                    hollow_forecast) H hollow_item
             ltac:(right; left; reflexivity) "Wsymb2"
             ltac:(left; reflexivity)
             (mkParameter "Wsymb2" "hl" 0 "category" []) eq_refl).
    reflexivity.
Defined.


Lemma run_file_mode_witness :
  (exists rest,
     snd (run amd64 net_200 six_decimals decode_fixture clock one_decimal
            no_files 18.040468%float 59.340379%float "data.json")
     = EvReadFile "data.json" :: rest /\
     forall e, In (Lib e) rest -> exists buf, e = EvUnmarshal buf) /\
  (forall network' fmt_f' lon' lat',
     run amd64 network' fmt_f' decode_fixture clock one_decimal no_files
       lon' lat' "data.json"
     = run amd64 net_200 six_decimals decode_fixture clock one_decimal
         no_files 18.040468%float 59.340379%float "data.json").
Proof.
  apply (run_file_mode instant amd64 net_200 six_decimals decode_fixture clock
           one_decimal no_files 18.040468%float 59.340379%float "data.json").
  discriminate.
Defined.

Lemma run_fetch_mode_witness :
  run amd64 net_503 six_decimals decode_fixture clock one_decimal no_files
    0%float 0%float ""
  = (Ok (Some (fmt_Errorf "status is not ok: service unavailable")),
     map Lib (snd (GetForecast net_503 six_decimals decode_fixture
                     0%float 0%float))).
Proof.
  apply (proj1 (proj2 (run_fetch_mode instant amd64 net_503 six_decimals
                         decode_fixture clock one_decimal no_files
                         0%float 0%float))).
  reflexivity.
Defined.


Lemma main_status_not_ok_witness :
  main amd64 net_503 six_decimals decode_fixture clock one_decimal no_files
    0%float 0%float ""
  = (Exit1,
     [Lib (EvGet (forecast_url six_decimals 0%float 0%float)); Lib EvReadAll;
      Lib EvClose;
      EvStderr (("status is not ok: " ++ "service unavailable") ++ newline)]).
Proof.
  apply (main_status_not_ok instant amd64 net_503 six_decimals decode_fixture
           clock one_decimal no_files 0%float 0%float unavailable
           "service unavailable").
  - reflexivity.
  - unfold StatusOK. cbn. lia.
  - reflexivity.
Defined.
